(** * PhysicsEngine: a shallow embedding of libraries/physics/src/PhysicsEngine.cpp

    The engine is modelled as explicit state passing in a small state monad
    with a crash outcome (a failed [assert], or undefined behaviour such as
    calling a method through a null pointer).  The state holds the heap of
    Bullet rigid bodies and collision objects, the dynamics world's list of
    collision objects, the motion states (proxies), the shape cache, the
    voxel map and a trace of the simulator's step calls.

    Floats are modelled by exact rationals [Q]; the code only copies,
    compares and adds them deterministically, which is all the claims use.
    Bullet is an external library: the few methods the code calls are
    modelled after Bullet 2.82 (btCollisionObject, btRigidBody,
    btDiscreteDynamicsWorld). *)

From Stdlib Require Import ZArith QArith List Bool Lia.
From stdpp Require Import base gmap.

(* ------------------------------------------------------------------ *)
(** ** Vectors and transforms (glm::vec3 / btVector3 / btTransform) *)

Record vec3 := Vec3 { vx : Q; vy : Q; vz : Q }.

Definition vzero : vec3 := Vec3 0%Q 0%Q 0%Q.
Definition vsplat (a : Q) : vec3 := Vec3 a a a.
Definition vadd (a b : vec3) : vec3 :=
  Vec3 (vx a + vx b)%Q (vy a + vy b)%Q (vz a + vz b)%Q.
Definition vsub (a b : vec3) : vec3 :=
  Vec3 (vx a - vx b)%Q (vy a - vy b)%Q (vz a - vz b)%Q.

(** Leibniz equality test on rationals (meaningful on reduced ones). *)
Definition Q_eqb (a b : Q) : bool :=
  Z.eqb (Qnum a) (Qnum b) && Pos.eqb (Qden a) (Qden b).

Definition vec3_eqb (a b : vec3) : bool :=
  Q_eqb (vx a) (vx b) && Q_eqb (vy a) (vy b) && Q_eqb (vz a) (vz b).

(** Canonical form of a vector: every component reduced. *)
Definition vcanon (v : vec3) : vec3 := Vec3 (Qred (vx v)) (Qred (vy v)) (Qred (vz v)).

(** A btTransform: origin and rotation (the rotation is only copied). *)
Record transform := Transform { t_origin : vec3; t_rotation : vec3 }.

Definition identity_transform : transform := Transform vzero vzero.

(* ------------------------------------------------------------------ *)
(** ** Shape descriptors (ShapeInfo) *)

(** Modelled from the spec: ShapeInfo (not under src/) is a value-based,
    canonical descriptor; a default-constructed one describes no shape. *)
Inductive shape_info :=
| InvalidShape
| BoxShape (half_extents : vec3).

Definition shape_info_eqb (a b : shape_info) : bool :=
  match a, b with
  | InvalidShape, InvalidShape => true
  | BoxShape h1, BoxShape h2 => vec3_eqb h1 h2
  | _, _ => false
  end.

(** [ShapeInfo::setBox]: the descriptor is keyed canonically. *)
Definition setBox (half : vec3) : shape_info := BoxShape (vcanon half).

(** A [btCollisionShape*] owned by the shape cache: the shape is identified
    by its canonical descriptor, [None] is the null pointer. *)
Definition shape_ptr := option shape_info.

Definition shape_ptr_eqb (a b : shape_ptr) : bool :=
  match a, b with
  | None, None => true
  | Some x, Some y => shape_info_eqb x y
  | _, _ => false
  end.

(** [ShapeInfo::collectInfo(shape)]: rebuild the descriptor of a live shape. *)
Definition collectInfo (s : shape_ptr) : shape_info :=
  match s with Some i => i | None => InvalidShape end.

(* ------------------------------------------------------------------ *)
(** ** The shape cache (ShapeManager): descriptor -> reference count *)

Definition shape_cache := list (shape_info * nat).

Fixpoint cache_find (c : shape_cache) (k : shape_info) : option nat :=
  match c with
  | [] => None
  | (k', n) :: c' => if shape_info_eqb k k' then Some n else cache_find c' k
  end.

Fixpoint cache_set (c : shape_cache) (k : shape_info) (n : nat) : shape_cache :=
  match c with
  | [] => [(k, n)]
  | (k', n') :: c' =>
      if shape_info_eqb k k' then (k', n) :: c' else (k', n') :: cache_set c' k n
  end.

Fixpoint cache_remove (c : shape_cache) (k : shape_info) : shape_cache :=
  match c with
  | [] => []
  | (k', n') :: c' => if shape_info_eqb k k' then c' else (k', n') :: cache_remove c' k
  end.

(** The reference count of a descriptor (0 when it has no entry). *)
Definition ref_count (c : shape_cache) (k : shape_info) : nat :=
  match cache_find c k with Some n => n | None => 0 end.

(* ------------------------------------------------------------------ *)
(** ** Bullet objects *)

(** btCollisionObject collision flags. *)
Definition CF_STATIC_OBJECT : Z := 1.
Definition CF_KINEMATIC_OBJECT : Z := 2.
(** btRigidBody flags. *)
Definition BT_DISABLE_WORLD_GRAVITY : Z := 1.
(** btCollisionObject activation states. *)
Definition ACTIVE_TAG : Z := 1.
Definition ISLAND_SLEEPING : Z := 2.
Definition WANTS_DEACTIVATION : Z := 3.
Definition DISABLE_DEACTIVATION : Z := 4.
Definition DISABLE_SIMULATION : Z := 5.

(** A btRigidBody.  [rb_motion] is its btMotionState, i.e. the id of the
    CustomMotionState (proxy) it was built from.  [rb_mass] is the mass last
    given to setMassProps (Bullet stores its inverse). *)
Record rigid_body := RigidBody {
  rb_motion : nat;
  rb_shape : shape_ptr;
  rb_cflags : Z;
  rb_flags : Z;
  rb_act : Z;
  rb_mass : Q;
  rb_inertia : vec3;
  rb_transform : transform;
  rb_linvel : vec3;
  rb_angvel : vec3;
  rb_gravity : vec3;
  rb_restitution : Q;
  rb_friction : Q
}.

Definition with_cflags (f : Z) (b : rigid_body) : rigid_body :=
  {| rb_motion := rb_motion b; rb_shape := rb_shape b; rb_cflags := f;
     rb_flags := rb_flags b; rb_act := rb_act b; rb_mass := rb_mass b;
     rb_inertia := rb_inertia b; rb_transform := rb_transform b;
     rb_linvel := rb_linvel b; rb_angvel := rb_angvel b; rb_gravity := rb_gravity b;
     rb_restitution := rb_restitution b; rb_friction := rb_friction b |}.

Definition with_flags (f : Z) (b : rigid_body) : rigid_body :=
  {| rb_motion := rb_motion b; rb_shape := rb_shape b; rb_cflags := rb_cflags b;
     rb_flags := f; rb_act := rb_act b; rb_mass := rb_mass b;
     rb_inertia := rb_inertia b; rb_transform := rb_transform b;
     rb_linvel := rb_linvel b; rb_angvel := rb_angvel b; rb_gravity := rb_gravity b;
     rb_restitution := rb_restitution b; rb_friction := rb_friction b |}.

Definition with_act (a : Z) (b : rigid_body) : rigid_body :=
  {| rb_motion := rb_motion b; rb_shape := rb_shape b; rb_cflags := rb_cflags b;
     rb_flags := rb_flags b; rb_act := a; rb_mass := rb_mass b;
     rb_inertia := rb_inertia b; rb_transform := rb_transform b;
     rb_linvel := rb_linvel b; rb_angvel := rb_angvel b; rb_gravity := rb_gravity b;
     rb_restitution := rb_restitution b; rb_friction := rb_friction b |}.

Definition with_mass (m : Q) (i : vec3) (b : rigid_body) : rigid_body :=
  {| rb_motion := rb_motion b; rb_shape := rb_shape b; rb_cflags := rb_cflags b;
     rb_flags := rb_flags b; rb_act := rb_act b; rb_mass := m;
     rb_inertia := i; rb_transform := rb_transform b;
     rb_linvel := rb_linvel b; rb_angvel := rb_angvel b; rb_gravity := rb_gravity b;
     rb_restitution := rb_restitution b; rb_friction := rb_friction b |}.

Definition with_shape (s : shape_ptr) (b : rigid_body) : rigid_body :=
  {| rb_motion := rb_motion b; rb_shape := s; rb_cflags := rb_cflags b;
     rb_flags := rb_flags b; rb_act := rb_act b; rb_mass := rb_mass b;
     rb_inertia := rb_inertia b; rb_transform := rb_transform b;
     rb_linvel := rb_linvel b; rb_angvel := rb_angvel b; rb_gravity := rb_gravity b;
     rb_restitution := rb_restitution b; rb_friction := rb_friction b |}.

Definition with_transform (t : transform) (b : rigid_body) : rigid_body :=
  {| rb_motion := rb_motion b; rb_shape := rb_shape b; rb_cflags := rb_cflags b;
     rb_flags := rb_flags b; rb_act := rb_act b; rb_mass := rb_mass b;
     rb_inertia := rb_inertia b; rb_transform := t;
     rb_linvel := rb_linvel b; rb_angvel := rb_angvel b; rb_gravity := rb_gravity b;
     rb_restitution := rb_restitution b; rb_friction := rb_friction b |}.

Definition with_linvel (v : vec3) (b : rigid_body) : rigid_body :=
  {| rb_motion := rb_motion b; rb_shape := rb_shape b; rb_cflags := rb_cflags b;
     rb_flags := rb_flags b; rb_act := rb_act b; rb_mass := rb_mass b;
     rb_inertia := rb_inertia b; rb_transform := rb_transform b;
     rb_linvel := v; rb_angvel := rb_angvel b; rb_gravity := rb_gravity b;
     rb_restitution := rb_restitution b; rb_friction := rb_friction b |}.

Definition with_angvel (v : vec3) (b : rigid_body) : rigid_body :=
  {| rb_motion := rb_motion b; rb_shape := rb_shape b; rb_cflags := rb_cflags b;
     rb_flags := rb_flags b; rb_act := rb_act b; rb_mass := rb_mass b;
     rb_inertia := rb_inertia b; rb_transform := rb_transform b;
     rb_linvel := rb_linvel b; rb_angvel := v; rb_gravity := rb_gravity b;
     rb_restitution := rb_restitution b; rb_friction := rb_friction b |}.

Definition with_gravity (g : vec3) (b : rigid_body) : rigid_body :=
  {| rb_motion := rb_motion b; rb_shape := rb_shape b; rb_cflags := rb_cflags b;
     rb_flags := rb_flags b; rb_act := rb_act b; rb_mass := rb_mass b;
     rb_inertia := rb_inertia b; rb_transform := rb_transform b;
     rb_linvel := rb_linvel b; rb_angvel := rb_angvel b; rb_gravity := g;
     rb_restitution := rb_restitution b; rb_friction := rb_friction b |}.

Definition with_restitution (r : Q) (b : rigid_body) : rigid_body :=
  {| rb_motion := rb_motion b; rb_shape := rb_shape b; rb_cflags := rb_cflags b;
     rb_flags := rb_flags b; rb_act := rb_act b; rb_mass := rb_mass b;
     rb_inertia := rb_inertia b; rb_transform := rb_transform b;
     rb_linvel := rb_linvel b; rb_angvel := rb_angvel b; rb_gravity := rb_gravity b;
     rb_restitution := r; rb_friction := rb_friction b |}.

Definition with_friction (f : Q) (b : rigid_body) : rigid_body :=
  {| rb_motion := rb_motion b; rb_shape := rb_shape b; rb_cflags := rb_cflags b;
     rb_flags := rb_flags b; rb_act := rb_act b; rb_mass := rb_mass b;
     rb_inertia := rb_inertia b; rb_transform := rb_transform b;
     rb_linvel := rb_linvel b; rb_angvel := rb_angvel b; rb_gravity := rb_gravity b;
     rb_restitution := rb_restitution b; rb_friction := f |}.

(** A plain btCollisionObject (used for voxels). *)
Record coll_object := CollObject { co_shape : shape_ptr; co_transform : transform }.

(** VoxelObject: the true center and the collision object (heap id). *)
Record voxel_object := VoxelObject { vo_center : vec3; vo_object : nat }.

(* ------------------------------------------------------------------ *)
(** ** Motion states (CustomMotionState, the proxies) *)

Inductive motion_type :=
| MOTION_TYPE_STATIC
| MOTION_TYPE_DYNAMIC
| MOTION_TYPE_KINEMATIC.

(** The entity-side state a CustomMotionState reports, and its [_body]
    back-reference (a heap id, [None] for NULL). *)
Record motion_state := MotionState {
  ms_body : option nat;
  ms_motion_type : motion_type;
  ms_mass : Q;
  ms_shape_info : shape_info;
  ms_transform : transform;
  ms_linvel : vec3;
  ms_angvel : vec3;
  ms_gravity : vec3;
  ms_restitution : Q;
  ms_friction : Q
}.

Definition with_body (ob : option nat) (m : motion_state) : motion_state :=
  {| ms_body := ob; ms_motion_type := ms_motion_type m; ms_mass := ms_mass m;
     ms_shape_info := ms_shape_info m; ms_transform := ms_transform m;
     ms_linvel := ms_linvel m; ms_angvel := ms_angvel m; ms_gravity := ms_gravity m;
     ms_restitution := ms_restitution m; ms_friction := ms_friction m |}.

(* ------------------------------------------------------------------ *)
(** ** The engine state *)

(** One call of [btDynamicsWorld::stepSimulation(timeStep, maxSubSteps, fixedTimeStep)]. *)
Record step_call := StepCall { sc_timestep : Q; sc_max_substeps : Z; sc_fixed_substep : Q }.

Record engine := Engine {
  e_bodies : gmap nat rigid_body;        (* heap: btRigidBody objects *)
  e_objects : gmap nat coll_object;      (* heap: plain btCollisionObjects *)
  e_world : list nat;                    (* the dynamics world's collision objects *)
  e_proxies : gmap nat motion_state;     (* the CustomMotionStates *)
  e_shapes : shape_cache;                (* _shapeManager *)
  e_voxels : list (vec3 * voxel_object); (* _voxels *)
  e_next : nat;                          (* next free heap address *)
  e_steps : list step_call;              (* calls made to the simulator's step *)
  e_gravity : vec3;                      (* the world's gravity *)
  e_origin : vec3                        (* _originOffset *)
}.

Definition set_bodies (x : gmap nat rigid_body) (s : engine) : engine :=
  Engine x (e_objects s) (e_world s) (e_proxies s) (e_shapes s) (e_voxels s)
    (e_next s) (e_steps s) (e_gravity s) (e_origin s).
Definition set_objects (x : gmap nat coll_object) (s : engine) : engine :=
  Engine (e_bodies s) x (e_world s) (e_proxies s) (e_shapes s) (e_voxels s)
    (e_next s) (e_steps s) (e_gravity s) (e_origin s).
Definition set_world (x : list nat) (s : engine) : engine :=
  Engine (e_bodies s) (e_objects s) x (e_proxies s) (e_shapes s) (e_voxels s)
    (e_next s) (e_steps s) (e_gravity s) (e_origin s).
Definition set_proxies (x : gmap nat motion_state) (s : engine) : engine :=
  Engine (e_bodies s) (e_objects s) (e_world s) x (e_shapes s) (e_voxels s)
    (e_next s) (e_steps s) (e_gravity s) (e_origin s).
Definition set_shapes (x : shape_cache) (s : engine) : engine :=
  Engine (e_bodies s) (e_objects s) (e_world s) (e_proxies s) x (e_voxels s)
    (e_next s) (e_steps s) (e_gravity s) (e_origin s).
Definition set_voxels (x : list (vec3 * voxel_object)) (s : engine) : engine :=
  Engine (e_bodies s) (e_objects s) (e_world s) (e_proxies s) (e_shapes s) x
    (e_next s) (e_steps s) (e_gravity s) (e_origin s).
Definition set_next (x : nat) (s : engine) : engine :=
  Engine (e_bodies s) (e_objects s) (e_world s) (e_proxies s) (e_shapes s) (e_voxels s)
    x (e_steps s) (e_gravity s) (e_origin s).
Definition set_steps (x : list step_call) (s : engine) : engine :=
  Engine (e_bodies s) (e_objects s) (e_world s) (e_proxies s) (e_shapes s) (e_voxels s)
    (e_next s) x (e_gravity s) (e_origin s).

(* ------------------------------------------------------------------ *)
(** ** The engine monad: state passing with a crash outcome *)

Inductive outcome (A : Type) :=
| Ret (a : A) (s : engine)
| Crash (s : engine).
Arguments Ret {A} a s.
Arguments Crash {A} s.

Definition M (A : Type) : Type := engine -> outcome A.

Global Instance M_ret : MRet M := fun A a s => Ret a s.
Global Instance M_bind : MBind M := fun A B k m s =>
  match m s with
  | Ret a s' => k a s'
  | Crash s' => Crash s'
  end.

Definition gets {A} (f : engine -> A) : M A := fun s => Ret (f s) s.
Definition modify (f : engine -> engine) : M unit := fun s => Ret tt (f s).
Definition crash {A} : M A := fun s => Crash s.

(** [assert(b)]: aborts when assertions are compiled in ([dbg]). *)
Definition assert_ (dbg b : bool) : M unit :=
  if dbg && negb b then crash else mret tt.

(** Dereference a body pointer; a dangling pointer is undefined behaviour. *)
Definition get_body (id : nat) : M rigid_body :=
  fun s => match e_bodies s !! id with Some b => Ret b s | None => Crash s end.

Definition put_body (id : nat) (b : rigid_body) : M unit :=
  modify (fun s => set_bodies (<[id := b]> (e_bodies s)) s).

Definition modify_body (id : nat) (f : rigid_body -> rigid_body) : M unit :=
  b ← get_body id; put_body id (f b).

Definition get_proxy (p : nat) : M motion_state :=
  fun s => match e_proxies s !! p with Some m => Ret m s | None => Crash s end.

Definition set_proxy_body (p : nat) (ob : option nat) : M unit :=
  m ← get_proxy p;
  modify (fun s => set_proxies (<[p := with_body ob m]> (e_proxies s)) s).

Definition alloc : M nat :=
  fun s => Ret (e_next s) (set_next (S (e_next s)) s).

(* ------------------------------------------------------------------ *)
(** ** Bullet methods used by the engine (after Bullet 2.82) *)

Definition flag_set (flags bit : Z) : bool := negb (Z.land flags bit =? 0)%Z.

(** btCollisionObject::isStaticObject / isKinematicObject / isStaticOrKinematicObject *)
Definition isStaticObject (b : rigid_body) : bool := flag_set (rb_cflags b) CF_STATIC_OBJECT.
Definition isKinematicObject (b : rigid_body) : bool := flag_set (rb_cflags b) CF_KINEMATIC_OBJECT.
Definition isStaticOrKinematicObject (b : rigid_body) : bool :=
  flag_set (rb_cflags b) (Z.lor CF_STATIC_OBJECT CF_KINEMATIC_OBJECT).

(** btCollisionObject::setActivationState: a body whose state is
    DISABLE_DEACTIVATION or DISABLE_SIMULATION keeps it. *)
Definition setActivationState (n : Z) (b : rigid_body) : rigid_body :=
  if ((rb_act b =? DISABLE_DEACTIVATION) || (rb_act b =? DISABLE_SIMULATION))%Z
  then b else with_act n b.

(** btCollisionObject::forceActivationState *)
Definition forceActivationState (n : Z) (b : rigid_body) : rigid_body := with_act n b.

(** btCollisionObject::activate(forceActivation) *)
Definition activate (force : bool) (b : rigid_body) : rigid_body :=
  if force || negb (isStaticOrKinematicObject b)
  then setActivationState ACTIVE_TAG b else b.

(** btRigidBody::setMassProps: a zero mass makes the body static. *)
Definition setMassProps (m : Q) (inertia : vec3) (b : rigid_body) : rigid_body :=
  if Qeq_bool m 0
  then with_mass m inertia (with_cflags (Z.lor (rb_cflags b) CF_STATIC_OBJECT) b)
  else with_mass m inertia (with_cflags (Z.land (rb_cflags b) (Z.lnot CF_STATIC_OBJECT)) b).

(** btBoxShape::calculateLocalInertia (the half extents with margin are the
    half extents the box was built from). *)
Definition calculateLocalInertia (sh : shape_info) (m : Q) : vec3 :=
  match sh with
  | BoxShape h =>
      let lx := (2 * vx h)%Q in let ly := (2 * vy h)%Q in let lz := (2 * vz h)%Q in
      Vec3 (m / 12 * (ly * ly + lz * lz))%Q (m / 12 * (lx * lx + lz * lz))%Q
           (m / 12 * (lx * lx + ly * ly))%Q
  | InvalidShape => vzero
  end.

(** btRigidBody(mass, motionState, shape, localInertia): a btCollisionObject
    starts static and active; setupRigidBody zeroes the velocities and
    gravity, sets friction 0.5, restitution 0 and no rigid-body flags, reads
    the world transform from the motion state and calls setMassProps. *)
Definition new_rigid_body (p : nat) (ms : motion_state) (m : Q) (sh : shape_ptr)
    (inertia : vec3) : rigid_body :=
  setMassProps m inertia
    {| rb_motion := p; rb_shape := sh; rb_cflags := CF_STATIC_OBJECT; rb_flags := 0%Z;
       rb_act := ACTIVE_TAG; rb_mass := 0%Q; rb_inertia := vzero;
       rb_transform := ms_transform ms; rb_linvel := vzero; rb_angvel := vzero;
       rb_gravity := vzero; rb_restitution := 0%Q; rb_friction := (1 # 2)%Q |}.

(** Remove one occurrence of an object from the world's object array (the
    order of that array is not modelled). *)
Fixpoint remove_first (id : nat) (l : list nat) : list nat :=
  match l with
  | [] => []
  | x :: l' => if Nat.eqb x id then l' else x :: remove_first id l'
  end.

(** btCollisionWorld::addCollisionObject / removeCollisionObject *)
Definition addCollisionObject (id : nat) : M unit :=
  modify (fun s => set_world (e_world s ++ [id]) s).
Definition removeCollisionObject (id : nat) : M unit :=
  modify (fun s => set_world (remove_first id (e_world s)) s).

(** btDiscreteDynamicsWorld::addRigidBody: world gravity is given to a
    dynamic body unless it disables it; a body without a shape is not
    added; a static body is put to sleep. *)
Definition addRigidBody (id : nat) : M unit :=
  g ← gets e_gravity;
  b ← get_body id;
  let b1 := if negb (isStaticOrKinematicObject b)
                && negb (flag_set (rb_flags b) BT_DISABLE_WORLD_GRAVITY)
            then with_gravity g b else b in
  match rb_shape b1 with
  | Some _ =>
      put_body id (if isStaticObject b1 then setActivationState ISLAND_SLEEPING b1 else b1);;
      addCollisionObject id
  | None => put_body id b1
  end.

(** btDiscreteDynamicsWorld::removeRigidBody *)
Definition removeRigidBody (id : nat) : M unit := removeCollisionObject id.

(* ------------------------------------------------------------------ *)
(** ** Voxel keys and the voxel map *)

(** Modelled from the spec: PositionHashKey (not under src/) canonicalises
    the position, so equal positions give equal keys. *)
Definition PositionHashKey (v : vec3) : vec3 := vcanon v.

Fixpoint voxel_find (l : list (vec3 * voxel_object)) (k : vec3) : option voxel_object :=
  match l with
  | [] => None
  | (k', v) :: l' => if vec3_eqb k k' then Some v else voxel_find l' k
  end.

Fixpoint voxel_insert (l : list (vec3 * voxel_object)) (k : vec3) (v : voxel_object)
    : list (vec3 * voxel_object) :=
  match l with
  | [] => [(k, v)]
  | (k', v') :: l' => if vec3_eqb k k' then (k', v) :: l' else (k', v') :: voxel_insert l' k v
  end.

Fixpoint voxel_remove (l : list (vec3 * voxel_object)) (k : vec3) : list (vec3 * voxel_object) :=
  match l with
  | [] => []
  | (k', v') :: l' => if vec3_eqb k k' then voxel_remove l' k else (k', v') :: voxel_remove l' k
  end.

(* ------------------------------------------------------------------ *)
(** ** Update flags *)

(** Modelled from the spec: the update flag bits and their grouping
    (PhysicsEngine.h is not under src/): Easy = {Position, Velocity},
    Hard = {Shape, Mass, classification change}. *)
Definition PHYSICS_UPDATE_POSITION : Z := 1.
Definition PHYSICS_UPDATE_VELOCITY : Z := 2.
Definition PHYSICS_UPDATE_MASS : Z := 4.
Definition PHYSICS_UPDATE_SHAPE : Z := 8.
Definition PHYSICS_UPDATE_MOTION_TYPE : Z := 16.
Definition PHYSICS_UPDATE_EASY : Z := Z.lor PHYSICS_UPDATE_POSITION PHYSICS_UPDATE_VELOCITY.
Definition PHYSICS_UPDATE_HARD : Z :=
  Z.lor PHYSICS_UPDATE_SHAPE (Z.lor PHYSICS_UPDATE_MASS PHYSICS_UPDATE_MOTION_TYPE).

(* ------------------------------------------------------------------ *)
(** ** The engine operations *)

Section PhysicsEngine.

(** Whether a shape can be built from a descriptor ([ShapeInfo::createShape]
    refuses out-of-range geometry). *)
Variable createShape_ok : shape_info -> bool.
(** Whether [assert] is compiled in. *)
Variable dbg : bool.

(** Modelled from the spec: ShapeManager::getShape (not under src/). *)
Definition getShape (info : shape_info) : M shape_ptr :=
  c ← gets e_shapes;
  match cache_find c info with
  | Some n => modify (set_shapes (cache_set c info (S n)));; mret (Some info)
  | None =>
      if createShape_ok info
      then modify (set_shapes (cache_set c info 1));; mret (Some info)
      else mret None
  end.

(** Modelled from the spec: ShapeManager::releaseShape (not under src/). *)
Definition releaseShape (info : shape_info) : M bool :=
  c ← gets e_shapes;
  match cache_find c info with
  | Some n =>
      (if n <=? 1 then modify (set_shapes (cache_remove c info))
       else modify (set_shapes (cache_set c info (n - 1))));;
      mret true
  | None => mret false
  end.

(** Modelled from the spec: CustomMotionState::applyVelocities and
    applyGravity (not under src/) write the proxy's velocities and local
    gravity onto the proxy's body. *)
Definition applyVelocities (p : nat) : M unit :=
  ms ← get_proxy p;
  match ms_body ms with
  | Some id => modify_body id (fun b => with_angvel (ms_angvel ms) (with_linvel (ms_linvel ms) b))
  | None => mret tt
  end.

Definition applyGravity (p : nat) : M unit :=
  ms ← get_proxy p;
  match ms_body ms with
  | Some id => modify_body id (with_gravity (ms_gravity ms))
  | None => mret tt
  end.

(** PhysicsEngine::init; [dynamicsWorld] tells whether [_dynamicsWorld] is
    set, and the result is its new value.  A new btDiscreteDynamicsWorld has
    no collision objects, gravity (0,-10,0) and has made no step; the ground
    object is a plain btCollisionObject (those start static) whose box shape
    is built directly, without the shape cache. *)
Definition init (dynamicsWorld : bool) : M bool :=
  if dynamicsWorld then mret true else
  modify (fun s => Engine (e_bodies s) (e_objects s) [] (e_proxies s) (e_shapes s)
                     (e_voxels s) (e_next s) [] (Vec3 0 (-10) 0) (e_origin s));;
  let halfSide := 200%Q in
  let halfHeight := 1%Q in
  groundObject ← alloc;
  modify (fun s => set_objects (<[groundObject :=
    CollObject (Some (BoxShape (Vec3 halfSide halfHeight halfSide)))
      (Transform (Vec3 halfSide (- halfHeight) halfSide) vzero)]> (e_objects s)) s);;
  addCollisionObject groundObject;;
  mret true.

(** PhysicsEngine::stepSimulation; [elapsed_us] is what [_clock] reports. *)
Definition MAX_TIMESTEP : Q := 1 # 30.
Definition MAX_NUM_SUBSTEPS : Z := 2.
Definition FIXED_SUBSTEP : Q := 1 # 60.

Definition btMin (a b : Q) : Q := if negb (Qle_bool b a) then a else b.

Definition step_dt (elapsed_us : Z) : Q := ((1 # 1000000) * inject_Z elapsed_us)%Q.

Definition stepSimulation (elapsed_us : Z) : M unit :=
  let dt := step_dt elapsed_us in
  let timeStep := btMin dt MAX_TIMESTEP in
  modify (fun s => set_steps (e_steps s ++ [StepCall timeStep MAX_NUM_SUBSTEPS FIXED_SUBSTEP]) s).

(** PhysicsEngine::addVoxel *)
Definition addVoxel (position : vec3) (scale : Q) : M bool :=
  let halfExtents := vsplat ((1 # 2) * scale)%Q in
  let trueCenter := vadd position halfExtents in
  let key := PositionHashKey trueCenter in
  vs ← gets e_voxels;
  match voxel_find vs key with
  | Some _ => mret false
  | None =>
      shape ← getShape (setBox halfExtents);
      match shape with
      | None => mret false
      | Some _ =>
          object ← alloc;
          origin ← gets e_origin;
          let shiftedCenter := vadd (vsub position origin) halfExtents in
          modify (fun s => set_objects
            (<[object := CollObject shape (Transform shiftedCenter vzero)]> (e_objects s)) s);;
          modify (fun s => set_voxels
            (voxel_insert (e_voxels s) key (VoxelObject trueCenter object)) s);;
          addCollisionObject object;;
          mret true
      end
  end.

(** PhysicsEngine::removeVoxel *)
Definition removeVoxel (position : vec3) (scale : Q) : M bool :=
  let halfExtents := vsplat ((1 # 2) * scale)%Q in
  let trueCenter := vadd position halfExtents in
  let key := PositionHashKey trueCenter in
  vs ← gets e_voxels;
  match voxel_find vs key with
  | Some proxy =>
      removeCollisionObject (vo_object proxy);;
      released ← releaseShape (setBox halfExtents);
      assert_ dbg released;;
      modify (fun s => set_objects (delete (vo_object proxy) (e_objects s)) s);;
      modify (fun s => set_voxels (voxel_remove (e_voxels s) key) s);;
      mret true
  | None => mret false
  end.

(** PhysicsEngine::addEntity *)
Definition addEntity (p : nat) : M bool :=
  ms ← get_proxy p;
  shape ← getShape (ms_shape_info ms);
  match shape with
  | None => mret false
  | Some sh =>
      body ← (match ms_motion_type ms with
        | MOTION_TYPE_KINEMATIC =>
            body ← alloc;
            put_body body (new_rigid_body p ms 0 shape vzero);;
            modify_body body (with_cflags CF_KINEMATIC_OBJECT);;
            modify_body body (setActivationState DISABLE_DEACTIVATION);;
            set_proxy_body p (Some body);;
            mret body
        | MOTION_TYPE_DYNAMIC =>
            let mass := ms_mass ms in
            let inertia := calculateLocalInertia sh mass in
            body ← alloc;
            put_body body (new_rigid_body p ms mass shape inertia);;
            set_proxy_body p (Some body);;
            applyVelocities p;;
            applyGravity p;;
            mret body
        | MOTION_TYPE_STATIC =>
            body ← alloc;
            put_body body (new_rigid_body p ms 0 shape vzero);;
            modify_body body (with_cflags CF_STATIC_OBJECT);;
            set_proxy_body p (Some body);;
            mret body
        end);
      modify_body body (with_flags BT_DISABLE_WORLD_GRAVITY);;
      modify_body body (with_restitution (ms_restitution ms));;
      modify_body body (with_friction (ms_friction ms));;
      addRigidBody body;;
      mret true
  end.

(** PhysicsEngine::removeEntity *)
Definition removeEntity (p : nat) : M bool :=
  ms ← get_proxy p;
  match ms_body ms with
  | None => mret false
  | Some body =>
      b ← get_body body;
      let info := collectInfo (rb_shape b) in
      removeRigidBody body;;
      releaseShape info;;
      modify (fun s => set_bodies (delete body (e_bodies s)) s);;
      set_proxy_body p None;;
      mret true
  end.

(** Mass properties from the body's current shape and the proxy's mass
    ([body->getCollisionShape()->calculateLocalInertia]; a null shape is
    undefined behaviour). *)
Definition updateMassProps (body p : nat) : M unit :=
  ms ← get_proxy p;
  b ← get_body body;
  match rb_shape b with
  | Some sh => modify_body body (setMassProps (ms_mass ms) (calculateLocalInertia sh (ms_mass ms)))
  | None => crash
  end.

(** PhysicsEngine::updateEntityEasy *)
Definition updateEntityEasy (body p : nat) (flags : Z) : M unit :=
  ms ← get_proxy p;
  (if flag_set flags PHYSICS_UPDATE_POSITION
   then modify_body body (with_transform (ms_transform ms)) else mret tt);;
  (if flag_set flags PHYSICS_UPDATE_VELOCITY
   then applyVelocities p;; applyGravity p else mret tt);;
  modify_body body (with_restitution (ms_restitution ms));;
  modify_body body (with_friction (ms_friction ms));;
  (if flag_set flags PHYSICS_UPDATE_MASS then updateMassProps body p else mret tt);;
  modify_body body (activate false).

(** The motion type a body's collision flags encode (computed as [oldType]
    by updateEntityHard, which does not use it further). *)
Definition body_motion_type (b : rigid_body) : motion_type :=
  if isStaticObject b then MOTION_TYPE_STATIC
  else if isKinematicObject b then MOTION_TYPE_KINEMATIC
  else MOTION_TYPE_DYNAMIC.

(** Lines 219-230 of updateEntityHard: re-acquire the shape and swap it in
    when it changed, releasing whichever reference is no longer needed. *)
Definition hardShapeSwap (body p : nat) : M unit :=
  ms ← get_proxy p;
  b ← get_body body;
  let oldShape := rb_shape b in
  newShape ← getShape (ms_shape_info ms);
  if negb (shape_ptr_eqb newShape oldShape)
  then modify_body body (with_shape newShape);; releaseShape (collectInfo oldShape);; mret tt
  else releaseShape (collectInfo newShape);; mret tt.

(** The canonical state of the new classification (lines 240-280). *)
Definition applyMotionType (body p : nat) (newType : motion_type) (flags : Z) : M unit :=
  match newType with
  | MOTION_TYPE_KINEMATIC =>
      modify_body body (fun b => with_cflags
        (Z.land (Z.lor (rb_cflags b) CF_KINEMATIC_OBJECT) (Z.lnot CF_STATIC_OBJECT)) b);;
      modify_body body (forceActivationState DISABLE_DEACTIVATION);;
      modify_body body (setMassProps 0 vzero)
  | MOTION_TYPE_DYNAMIC =>
      modify_body body (fun b => with_cflags
        (Z.land (rb_cflags b) (Z.lnot (Z.lor CF_KINEMATIC_OBJECT CF_STATIC_OBJECT))) b);;
      (if negb (flag_set flags PHYSICS_UPDATE_MASS) then updateMassProps body p else mret tt);;
      modify_body body (activate true)
  | MOTION_TYPE_STATIC =>
      modify_body body (fun b => with_cflags
        (Z.land (Z.lor (rb_cflags b) CF_STATIC_OBJECT) (Z.lnot CF_KINEMATIC_OBJECT)) b);;
      modify_body body (forceActivationState DISABLE_SIMULATION);;
      modify_body body (setMassProps 0 vzero);;
      modify_body body (with_linvel vzero);;
      modify_body body (with_angvel vzero)
  end.

(** PhysicsEngine::updateEntityHard *)
Definition updateEntityHard (body p : nat) (flags : Z) : M unit :=
  ms ← get_proxy p;
  let newType := ms_motion_type ms in
  b ← get_body body;
  let oldType := body_motion_type b in
  removeRigidBody body;;
  (if flag_set flags PHYSICS_UPDATE_SHAPE
   then hardShapeSwap body p;; assert_ dbg (flag_set flags PHYSICS_UPDATE_MASS)
   else mret tt);;
  (if flag_set flags PHYSICS_UPDATE_EASY then updateEntityEasy body p flags else mret tt);;
  applyMotionType body p newType flags;;
  addRigidBody body;;
  modify_body body (activate false).

(** PhysicsEngine::updateEntity *)
Definition updateEntity (p : nat) (flags : Z) : M bool :=
  ms ← get_proxy p;
  match ms_body ms with
  | None => mret false
  | Some body =>
      (if flag_set flags PHYSICS_UPDATE_HARD then updateEntityHard body p flags
       else if flag_set flags PHYSICS_UPDATE_EASY then updateEntityEasy body p flags
       else mret tt);;
      mret true
  end.

End PhysicsEngine.

(* ------------------------------------------------------------------ *)
(** ** Observations on engine states *)

Definition outcome_state {A} (o : outcome A) : engine :=
  match o with Ret _ s => s | Crash s => s end.

(** The ids of the world's rigid bodies whose motion state is proxy [p]. *)
Definition world_bodies_of (s : engine) (p : nat) : list nat :=
  List.filter (fun id => match e_bodies s !! id with
                    | Some b => Nat.eqb (rb_motion b) p
                    | None => false
                    end) (e_world s).

(** A proxy is registered with the simulator when one of the world's
    rigid bodies has it as motion state. *)
Definition registered (s : engine) (p : nat) : Prop := world_bodies_of s p <> [].

(** The proxy's [_body] back-reference. *)
Definition proxy_body (s : engine) (p : nat) : option nat := e_proxies s !! p ≫= ms_body.

(** Every entry of the shape cache holds a positive count (an entry is
    erased when its count reaches zero). *)
Definition cache_wf (c : shape_cache) : Prop := Forall (fun e => snd e <> 0) c.

(** [m] leaves the shape cache as it found it, also when it aborts. *)
Definition keeps_shapes {A} (m : M A) : Prop :=
  forall s, e_shapes (outcome_state (m s)) = e_shapes s.

(** What addEntity gives the body it builds from proxy [p] with motion
    state [ms]. *)
Definition addEntity_body_ok (p : nat) (ms : motion_state) (b : rigid_body) : Prop :=
  rb_motion b = p /\ rb_shape b = Some (ms_shape_info ms) /\
  rb_flags b = BT_DISABLE_WORLD_GRAVITY /\ rb_transform b = ms_transform ms /\
  rb_restitution b = ms_restitution ms /\ rb_friction b = ms_friction ms /\
  match ms_motion_type ms with
  | MOTION_TYPE_KINEMATIC =>
      rb_cflags b = CF_KINEMATIC_OBJECT /\ rb_act b = DISABLE_DEACTIVATION /\
      rb_mass b = 0%Q /\ rb_linvel b = vzero /\ rb_angvel b = vzero /\ rb_gravity b = vzero
  | MOTION_TYPE_STATIC =>
      rb_cflags b = CF_STATIC_OBJECT /\ rb_act b = ISLAND_SLEEPING /\
      rb_mass b = 0%Q /\ rb_linvel b = vzero /\ rb_angvel b = vzero /\ rb_gravity b = vzero
  | MOTION_TYPE_DYNAMIC =>
      rb_mass b = ms_mass ms /\ rb_linvel b = ms_linvel ms /\ rb_angvel b = ms_angvel ms /\
      rb_gravity b = ms_gravity ms /\
      (if Qeq_bool (ms_mass ms) 0
       then rb_cflags b = CF_STATIC_OBJECT /\ rb_act b = ISLAND_SLEEPING
       else rb_cflags b = 0%Z /\ rb_act b = ACTIVE_TAG)
  end.

(* ------------------------------------------------------------------ *)
(** ** Concrete configurations *)

(** A shape factory that builds every shape. *)
Definition accept_all (_ : shape_info) : bool := true.

(** The box of a unit voxel. *)
Definition unit_box : shape_info := setBox (vsplat (1 # 2)).

(** A proxy with the unit box, not yet added. *)
Definition mk_proxy (t : motion_type) (m : Q) : motion_state :=
  {| ms_body := None; ms_motion_type := t; ms_mass := m; ms_shape_info := unit_box;
     ms_transform := identity_transform; ms_linvel := Vec3 1 0 0; ms_angvel := vzero;
     ms_gravity := Vec3 0 (-5) 0; ms_restitution := 1 # 2; ms_friction := 1 # 3 |}.

(** A fresh engine (world gravity -10 along y, no origin offset) that knows
    proxy 0. *)
Definition engine_with_proxy (ms : motion_state) : engine :=
  {| e_bodies := ∅; e_objects := ∅; e_world := []; e_proxies := {[0 := ms]};
     e_shapes := []; e_voxels := []; e_next := 0; e_steps := [];
     e_gravity := Vec3 0 (-10) 0; e_origin := vzero |}.

(** The state after running [m] from [s]. *)
Definition run_state {A} (m : M A) (s : engine) : engine := outcome_state (m s).

(** The entity behind proxy 0 now reports classification [t] and mass [m]
    (what the entity layer changes before it calls updateEntity). *)
Definition proxy0_reports (t : motion_type) (m : Q) (s : engine) : engine :=
  set_proxies (alter (fun ms =>
    {| ms_body := ms_body ms; ms_motion_type := t; ms_mass := m;
       ms_shape_info := ms_shape_info ms; ms_transform := ms_transform ms;
       ms_linvel := ms_linvel ms; ms_angvel := ms_angvel ms; ms_gravity := ms_gravity ms;
       ms_restitution := ms_restitution ms; ms_friction := ms_friction ms |}) 0
    (e_proxies s)) s.

(** Proxy 0 added as a static box, and as a dynamic box of mass 2. *)
Definition static_box_engine : engine :=
  run_state (addEntity accept_all 0) (engine_with_proxy (mk_proxy MOTION_TYPE_STATIC 2)).
Definition dynamic_box_engine : engine :=
  run_state (addEntity accept_all 0) (engine_with_proxy (mk_proxy MOTION_TYPE_DYNAMIC 2)).

(** The entity behind proxy 0 now computes the shape descriptor [info]. *)
Definition proxy0_shape (info : shape_info) (s : engine) : engine :=
  set_proxies (alter (fun ms =>
    {| ms_body := ms_body ms; ms_motion_type := ms_motion_type ms; ms_mass := ms_mass ms;
       ms_shape_info := info; ms_transform := ms_transform ms;
       ms_linvel := ms_linvel ms; ms_angvel := ms_angvel ms; ms_gravity := ms_gravity ms;
       ms_restitution := ms_restitution ms; ms_friction := ms_friction ms |}) 0
    (e_proxies s)) s.

(** A shape factory that builds the unit box only. *)
Definition unit_box_only (info : shape_info) : bool := shape_info_eqb info unit_box.

(** Proxy 0 added as a static unit box by that factory. *)
Definition static_unit_engine : engine :=
  run_state (addEntity unit_box_only 0) (engine_with_proxy (mk_proxy MOTION_TYPE_STATIC 2)).

(** Proxy 0 once added as a dynamic box of mass 2. *)
Definition dyn_proxy0 : motion_state := with_body (Some 0) (mk_proxy MOTION_TYPE_DYNAMIC 2).

(** The body stored under [id] (a fresh body when there is none). *)
Definition body_at (s : engine) (id : nat) : rigid_body :=
  match e_bodies s !! id with
  | Some b => b
  | None => new_rigid_body id (mk_proxy MOTION_TYPE_STATIC 0) 0 None vzero
  end.

(** The dynamic box made static by a classification-only hard update. *)
Definition made_static_engine : engine :=
  run_state (updateEntity accept_all false 0 PHYSICS_UPDATE_MOTION_TYPE)
    (proxy0_reports MOTION_TYPE_STATIC 2 dynamic_box_engine).

(** The motion state stored under [p] (a fresh proxy when there is none). *)
Definition proxy_at (s : engine) (p : nat) : motion_state :=
  match e_proxies s !! p with
  | Some m => m
  | None => mk_proxy MOTION_TYPE_STATIC 0
  end.

(** The voxel stored under key [k] (a dummy voxel when there is none). *)
Definition voxel_at (s : engine) (k : vec3) : voxel_object :=
  match voxel_find (e_voxels s) k with
  | Some v => v
  | None => VoxelObject vzero 0
  end.

(** A shape factory that builds no shape. *)
Definition reject_all (_ : shape_info) : bool := false.

(** A fresh engine holding one unit voxel at the origin, and one holding a
    voxel of scale 2 at the origin (true center (1,1,1)). *)
Definition one_voxel_engine : engine :=
  run_state (addVoxel accept_all vzero 1) (engine_with_proxy (mk_proxy MOTION_TYPE_STATIC 2)).
Definition big_voxel_engine : engine :=
  run_state (addVoxel accept_all vzero 2) (engine_with_proxy (mk_proxy MOTION_TYPE_STATIC 2)).

(* ------------------------------------------------------------------ *)
(** ** Lemmas on the shape cache and the voxel map *)

Lemma Q_eqb_refl (a : Q) : Q_eqb a a = true.
Proof. unfold Q_eqb. rewrite Z.eqb_refl, Pos.eqb_refl. reflexivity. Qed.

Lemma vec3_eqb_refl (v : vec3) : vec3_eqb v v = true.
Proof. unfold vec3_eqb. rewrite !Q_eqb_refl. reflexivity. Qed.

Lemma shape_info_eqb_refl (k : shape_info) : shape_info_eqb k k = true.
Proof. destruct k; simpl; [reflexivity | apply vec3_eqb_refl]. Qed.

Lemma cache_find_set_eq (c : shape_cache) (k : shape_info) (n : nat) :
  cache_find (cache_set c k n) k = Some n.
Proof.
  induction c as [|[k' n'] c IH]; simpl.
  - rewrite shape_info_eqb_refl. reflexivity.
  - destruct (shape_info_eqb k k') eqn:E; simpl; rewrite E; [reflexivity | exact IH].
Qed.

Lemma cache_set_set (c : shape_cache) (k : shape_info) (n m : nat) :
  cache_set (cache_set c k n) k m = cache_set c k m.
Proof.
  induction c as [|[k' n'] c IH]; simpl.
  - rewrite shape_info_eqb_refl. reflexivity.
  - destruct (shape_info_eqb k k') eqn:E; simpl; rewrite E; [reflexivity | now rewrite IH].
Qed.

Lemma cache_remove_set_new (c : shape_cache) (k : shape_info) (n : nat) :
  cache_find c k = None -> cache_remove (cache_set c k n) k = c.
Proof.
  induction c as [|[k' n'] c IH]; simpl; intros Hf.
  - rewrite shape_info_eqb_refl. reflexivity.
  - destruct (shape_info_eqb k k') eqn:E; [discriminate|]. simpl. rewrite E, IH; auto.
Qed.

Lemma cache_set_find_same (c : shape_cache) (k : shape_info) (n : nat) :
  cache_find c k = Some n -> cache_set c k n = c.
Proof.
  induction c as [|[k' n'] c IH]; simpl; intros Hf; [discriminate|].
  destruct (shape_info_eqb k k'); [injection Hf as ->; reflexivity | now rewrite IH].
Qed.

(** Shape is one of the hard flags. *)
Lemma flag_shape_hard (flags : Z) :
  flag_set flags PHYSICS_UPDATE_SHAPE = true -> flag_set flags PHYSICS_UPDATE_HARD = true.
Proof.
  unfold flag_set. rewrite !negb_true_iff, !Z.eqb_neq. intros Hs Hh. apply Hs.
  change PHYSICS_UPDATE_SHAPE with (Z.land PHYSICS_UPDATE_HARD PHYSICS_UPDATE_SHAPE).
  rewrite Z.land_assoc, Hh. reflexivity.
Qed.

Lemma cache_wf_find (c : shape_cache) (k : shape_info) (n : nat) :
  cache_wf c -> cache_find c k = Some n -> n <> 0.
Proof.
  unfold cache_wf. induction c as [|[k' n'] c IH]; simpl; intros Hwf Hf; [discriminate|].
  inversion Hwf as [|? ? Hhd Htl]; subst.
  destruct (shape_info_eqb k k'); [injection Hf as <-; exact Hhd | eauto].
Qed.

Lemma cflags_dynamic_clears (c k : Z) :
  Z.land (Z.lnot (Z.lor 2 1)) k = 0%Z ->
  Z.land (Z.land (Z.land c (Z.lnot (Z.lor 2 1))) (Z.lnot 1)) k = 0%Z.
Proof.
  intros Hk. rewrite <- !Z.land_assoc, (Z.land_comm (Z.lnot 1) k),
    (Z.land_assoc (Z.lnot (Z.lor 2 1)) k), Hk, Z.land_0_l. apply Z.land_0_r.
Qed.

Lemma voxel_find_insert_eq (l : list (vec3 * voxel_object)) (k : vec3) (v : voxel_object) :
  voxel_find (voxel_insert l k v) k = Some v.
Proof.
  induction l as [|[k' v'] l IH]; simpl.
  - rewrite vec3_eqb_refl. reflexivity.
  - destruct (vec3_eqb k k') eqn:E; simpl; rewrite E; [reflexivity | exact IH].
Qed.

Lemma voxel_find_remove_eq (l : list (vec3 * voxel_object)) (k : vec3) :
  voxel_find (voxel_remove l k) k = None.
Proof.
  induction l as [|[k' v'] l IH]; simpl; [reflexivity|].
  destruct (vec3_eqb k k') eqn:E; simpl; [exact IH | rewrite E; exact IH].
Qed.

(* ------------------------------------------------------------------ *)
(** ** Proof automation: running the engine monad symbolically *)

Ltac eng_unfold_in H :=
  unfold mbind, M_bind, mret, M_ret, gets, modify, crash, assert_, get_body, put_body,
    modify_body, get_proxy, set_proxy_body, alloc, addCollisionObject,
    removeCollisionObject, removeRigidBody, addRigidBody, applyVelocities,
    applyGravity, getShape, releaseShape, updateMassProps,
    with_cflags, with_flags, with_act, with_mass, with_shape, with_transform,
    with_linvel, with_angvel, with_gravity, with_restitution, with_friction, with_body,
    flag_set, isStaticObject, isKinematicObject, isStaticOrKinematicObject,
    setActivationState, forceActivationState, activate, new_rigid_body, setMassProps,
    CF_STATIC_OBJECT, CF_KINEMATIC_OBJECT, BT_DISABLE_WORLD_GRAVITY, ACTIVE_TAG,
    ISLAND_SLEEPING, DISABLE_DEACTIVATION, DISABLE_SIMULATION in H.

(** Rewrite [H] with every lookup fact ([l = Some _], [l = None]) and
    every boolean fact ([c = true], [c = false]) of the context. *)
Ltac eng_rw H :=
  repeat match goal with
         | Hx : ?l = Some _ |- _ => progress rewrite Hx in H
         | Hx : ?l = None |- _ => progress rewrite Hx in H
         | Hx : ?l = true |- _ => progress rewrite Hx in H
         | Hx : ?l = false |- _ => progress rewrite Hx in H
         end.

(** Unfold and reduce [H], rewriting with the context's lookup facts and
    the map laws, until nothing changes. *)
Ltac eng_go H :=
  repeat (progress (eng_unfold_in H; simpl in H; eng_rw H;
                    rewrite ?lookup_insert_eq, ?insert_insert_eq, ?voxel_find_insert_eq,
                      ?voxel_find_remove_eq, ?cache_find_set_eq, ?cache_set_set in H)).

(** Evaluate the left-hand side of an equation goal [m s = _]. *)
Ltac eng_eval :=
  match goal with
  | |- ?lhs = _ =>
      let o := fresh "o" in let Ho := fresh "Ho" in
      remember lhs as o eqn:Ho; symmetry in Ho; eng_go Ho; subst o
  end.

Ltac split_Qeq H :=
  try (match type of H with
       | context [Qeq_bool ?a ?b] => destruct (Qeq_bool a b) eqn:?
       end; eng_go H).

(** Close [a <> b] for closed terms by evaluation. *)
Ltac neq_by_eval := let Hx := fresh "Hx" in intro Hx; vm_compute in Hx; discriminate Hx.

(* ------------------------------------------------------------------ *)
(** ** Lemmas on the steps of a hard update *)

(** Running a bind whose first step returns. *)
Lemma bind_Ret {A B} (m : M A) (k : A -> M B) (s s' : engine) (a : A) :
  m s = Ret a s' -> (m ≫= k) s = k a s'.
Proof. intros H. unfold mbind, M_bind. rewrite H. reflexivity. Qed.

(** Monad laws, run on a state. *)
Lemma bind_assoc_run {A B C} (m : M A) (k1 : A -> M B) (k2 : B -> M C) (s : engine) :
  ((m ≫= k1) ≫= k2) s = (m ≫= (fun a => k1 a ≫= k2)) s.
Proof. unfold mbind, M_bind. destruct (m s); reflexivity. Qed.

(** Steps that leave the shape cache alone. *)
Lemma keeps_bind {A B} (m : M A) (k : A -> M B) :
  keeps_shapes m -> (forall a, keeps_shapes (k a)) -> keeps_shapes (m ≫= k).
Proof.
  intros Hm Hk s. unfold mbind, M_bind. specialize (Hm s).
  destruct (m s) as [a s'|s']; simpl in *; [rewrite Hk|]; exact Hm.
Qed.

Lemma keeps_ret {A} (a : A) : keeps_shapes (mret a).
Proof. intros s. reflexivity. Qed.

Lemma keeps_crash {A} : keeps_shapes (@crash A).
Proof. intros s. reflexivity. Qed.

Lemma keeps_gets {A} (f : engine -> A) : keeps_shapes (gets f).
Proof. intros s. reflexivity. Qed.

Lemma keeps_modify (f : engine -> engine) :
  (forall s, e_shapes (f s) = e_shapes s) -> keeps_shapes (modify f).
Proof. intros Hf s. apply Hf. Qed.

Lemma keeps_get_body (id : nat) : keeps_shapes (get_body id).
Proof. intros s. unfold get_body. destruct (e_bodies s !! id); reflexivity. Qed.

Lemma keeps_get_proxy (p : nat) : keeps_shapes (get_proxy p).
Proof. intros s. unfold get_proxy. destruct (e_proxies s !! p); reflexivity. Qed.

Ltac keeps_solve :=
  repeat match goal with
  | |- keeps_shapes (_ ≫= _) => apply keeps_bind; [|intros ?]
  | |- keeps_shapes (match ?x with _ => _ end) => destruct x
  | |- keeps_shapes (if ?c then _ else _) => destruct c
  | |- keeps_shapes (mret _) => apply keeps_ret
  | |- keeps_shapes crash => apply keeps_crash
  | |- keeps_shapes (gets _) => apply keeps_gets
  | |- keeps_shapes (modify _) => apply keeps_modify; intros ?; reflexivity
  | |- keeps_shapes (get_body _) => apply keeps_get_body
  | |- keeps_shapes (get_proxy _) => apply keeps_get_proxy
  | |- keeps_shapes _ =>
      progress unfold updateEntityEasy, applyMotionType, addRigidBody, removeRigidBody,
        addCollisionObject, removeCollisionObject, modify_body, put_body, applyVelocities,
        applyGravity, updateMassProps, assert_
  end.

Lemma keeps_hard_rest (dbg b : bool) (id p : nat) (t : motion_type) (flags : Z) :
  keeps_shapes (assert_ dbg b;;
    (if flag_set flags PHYSICS_UPDATE_EASY then updateEntityEasy id p flags else mret tt);;
    applyMotionType id p t flags;;
    addRigidBody id;;
    modify_body id (activate false)).
Proof. keeps_solve. Qed.

(** A hard shape update whose new shape is the body's own cached shape. *)
Lemma hardShapeSwap_same (ok : shape_info -> bool) (s : engine) (p id : nat)
    (ms : motion_state) (b : rigid_body) (n : nat) :
  e_proxies s !! p = Some ms -> e_bodies s !! id = Some b ->
  rb_shape b = Some (ms_shape_info ms) ->
  cache_find (e_shapes s) (ms_shape_info ms) = Some n -> n <> 0 ->
  exists s', hardShapeSwap ok id p s = Ret tt s' /\ e_shapes s' = e_shapes s.
Proof.
  intros Hp Hb Hsh Hc Hn.
  remember (hardShapeSwap ok id p s) as o eqn:Ho. symmetry in Ho.
  unfold hardShapeSwap in Ho. eng_go Ho. rewrite shape_info_eqb_refl in Ho. eng_go Ho.
  destruct n as [|n]; [congruence|]. simpl in Ho. subst o.
  eexists. split; [reflexivity|]. simpl.
  rewrite ?Nat.sub_0_r, ?cache_set_set. apply cache_set_find_same. exact Hc.
Qed.

(** The rest of a run after a step that keeps the shape cache. *)
Lemma shapes_bind_keeps {A B} (m : M A) (k : A -> M B) (s : engine) :
  (forall a, keeps_shapes (k a)) ->
  e_shapes (outcome_state ((m ≫= k) s)) = e_shapes (outcome_state (m s)).
Proof.
  intros Hk. unfold mbind, M_bind. destruct (m s) as [a s'|s']; [apply Hk | reflexivity].
Qed.

(** The shape swap of a hard update returns once proxy and body exist. *)
Lemma hardShapeSwap_returns (ok : shape_info -> bool) (s : engine) (p id : nat)
    (ms : motion_state) (b : rigid_body) :
  e_proxies s !! p = Some ms -> e_bodies s !! id = Some b ->
  exists s1, hardShapeSwap ok id p s = Ret tt s1.
Proof.
  intros Hp Hb.
  remember (hardShapeSwap ok id p s) as o eqn:Ho. symmetry in Ho.
  unfold hardShapeSwap in Ho. eng_go Ho.
  repeat (match type of Ho with
          | context [match ?x with _ => _ end] =>
              lazymatch type of x with outcome _ => fail | _ => destruct x eqn:? end
          end; eng_go Ho);
    subst o; eauto.
Qed.

(** Without the Mass flag, an easy update keeps the body's collision flags
    and shape; it may only activate the body. *)
Lemma updateEntityEasy_keeps_kind (s : engine) (p id : nat) (flags : Z)
    (ms : motion_state) (b : rigid_body) :
  e_proxies s !! p = Some ms -> ms_body ms = Some id -> e_bodies s !! id = Some b ->
  flag_set flags PHYSICS_UPDATE_MASS = false ->
  exists b1, updateEntityEasy id p flags s = Ret tt (set_bodies (<[id:=b1]> (e_bodies s)) s) /\
    rb_cflags b1 = rb_cflags b /\ rb_shape b1 = rb_shape b /\
    (rb_act b1 = rb_act b \/ rb_act b1 = ACTIVE_TAG).
Proof.
  intros Hp Hid Hb Hma.
  remember (updateEntityEasy id p flags s) as o eqn:Ho. symmetry in Ho.
  unfold updateEntityEasy in Ho. rewrite Hma in Ho. eng_go Ho.
  destruct (Z.land flags PHYSICS_UPDATE_POSITION =? 0)%Z; eng_go Ho;
  destruct (Z.land flags PHYSICS_UPDATE_VELOCITY =? 0)%Z; eng_go Ho;
  repeat (match type of Ho with
          | context [(?x =? ?y)%Z] => destruct (x =? y)%Z eqn:?
          end; simpl in Ho; eng_go Ho);
  subst o; eexists; (split; [reflexivity|]); simpl; auto.
Qed.

(** Turning a body Dynamic without the Mass flag clears its static and
    kinematic flags, applies the proxy's mass and activates it. *)
Lemma applyMotionType_dynamic (s : engine) (p id : nat) (flags : Z)
    (ms : motion_state) (b : rigid_body) (sh : shape_info) :
  e_proxies s !! p = Some ms -> e_bodies s !! id = Some b -> rb_shape b = Some sh ->
  Qeq_bool (ms_mass ms) 0 = false -> flag_set flags PHYSICS_UPDATE_MASS = false ->
  rb_act b <> DISABLE_SIMULATION ->
  exists b2, applyMotionType id p MOTION_TYPE_DYNAMIC flags s
             = Ret tt (set_bodies (<[id:=b2]> (e_bodies s)) s) /\
    isStaticOrKinematicObject b2 = false /\ isStaticObject b2 = false /\
    isKinematicObject b2 = false /\ rb_shape b2 = Some sh /\ rb_mass b2 = ms_mass ms /\
    (rb_act b2 = ACTIVE_TAG \/ rb_act b2 = DISABLE_DEACTIVATION).
Proof.
  intros Hp Hb Hsh Hq Hma Hact.
  apply Z.eqb_neq in Hact. unfold DISABLE_SIMULATION in Hact.
  remember (applyMotionType id p MOTION_TYPE_DYNAMIC flags s) as o eqn:Ho. symmetry in Ho.
  unfold applyMotionType in Ho. rewrite Hma in Ho. eng_go Ho.
  destruct (rb_act b =? 4)%Z eqn:Ha4; simpl in Ho; eng_go Ho; subst o;
    eexists; (split; [simpl; reflexivity|]);
    unfold isStaticOrKinematicObject, isStaticObject, isKinematicObject, flag_set; simpl;
    rewrite !cflags_dynamic_clears by reflexivity; repeat split; auto.
  right. apply Z.eqb_eq. exact Ha4.
Qed.

(** Re-inserting a shaped Dynamic body puts it back in the world unchanged
    in its flags, shape, mass and activation. *)
Lemma addRigidBody_dynamic (s : engine) (id : nat) (b : rigid_body) (sh : shape_info) :
  e_bodies s !! id = Some b -> rb_shape b = Some sh ->
  isStaticOrKinematicObject b = false -> isStaticObject b = false ->
  exists b3, addRigidBody id s
             = Ret tt (set_world (e_world s ++ [id]) (set_bodies (<[id:=b3]> (e_bodies s)) s)) /\
    rb_cflags b3 = rb_cflags b /\ rb_shape b3 = rb_shape b /\ rb_mass b3 = rb_mass b /\
    rb_act b3 = rb_act b.
Proof.
  intros Hb Hsh Hsk Hst.
  unfold addRigidBody. erewrite bind_Ret by reflexivity. erewrite bind_Ret.
  2:{ unfold get_body. rewrite Hb. reflexivity. }
  rewrite Hsk. simpl.
  destruct (negb (flag_set (rb_flags b) BT_DISABLE_WORLD_GRAVITY)); simpl;
    rewrite Hsh; unfold isStaticObject in *; simpl; rewrite Hst;
    (eexists; split; [reflexivity| auto]).
Qed.

(* ------------------------------------------------------------------ *)
(** ** Lemmas on whole runs of the operations *)

(** Removing an object just appended to a world that did not hold it. *)
Lemma remove_first_app_new (n : nat) (l : list nat) :
  ~ In n l -> remove_first n (l ++ [n]) = l.
Proof.
  induction l as [|x l IH]; simpl; intros Hn.
  - rewrite Nat.eqb_refl. reflexivity.
  - destruct (Nat.eqb x n) eqn:E; [apply Nat.eqb_eq in E; subst; tauto|].
    rewrite IH; tauto.
Qed.

(** Removing a key just inserted in a voxel map that did not hold it. *)
Lemma voxel_remove_insert_new (l : list (vec3 * voxel_object)) (k : vec3) (v : voxel_object) :
  voxel_find l k = None -> voxel_remove (voxel_insert l k v) k = l.
Proof.
  induction l as [|[k' v'] l IH]; simpl; intros Hf.
  - rewrite vec3_eqb_refl. reflexivity.
  - destruct (vec3_eqb k k') eqn:E; [discriminate|]. simpl. rewrite E, IH; auto.
Qed.

(** Writing a proxy's own back-reference changes nothing. *)
Lemma with_body_same (ms : motion_state) : with_body (ms_body ms) ms = ms.
Proof. destruct ms; reflexivity. Qed.

(** [Q_eqb] decides Leibniz equality. *)
Lemma Q_eqb_eq (a b : Q) : Q_eqb a b = true -> a = b.
Proof.
  destruct a as [an ad], b as [bn bd]. unfold Q_eqb. simpl.
  rewrite andb_true_iff, Z.eqb_eq, Pos.eqb_eq. intros [-> ->]. reflexivity.
Qed.

(** [shape_info_eqb] decides Leibniz equality. *)
Lemma shape_info_eqb_eq (a b : shape_info) : shape_info_eqb a b = true -> a = b.
Proof.
  destruct a as [|[x y z]], b as [|[x' y' z']]; simpl; try discriminate; [reflexivity|].
  unfold vec3_eqb. simpl. rewrite !andb_true_iff. intros [[Hx Hy] Hz].
  apply Q_eqb_eq in Hx, Hy, Hz. subst. reflexivity.
Qed.

(** A descriptor without an entry is not found. *)
Lemma cache_find_absent (c : shape_cache) (k : shape_info) :
  ~ In k (map fst c) -> cache_find c k = None.
Proof.
  induction c as [|[k' n'] c IH]; simpl; intros Hn; [reflexivity|].
  destruct (shape_info_eqb k k') eqn:E.
  - apply shape_info_eqb_eq in E. subst. tauto.
  - apply IH. tauto.
Qed.

(** With unique keys, a removed descriptor is no longer found. *)
Lemma cache_find_remove_eq (c : shape_cache) (k : shape_info) :
  NoDup (map fst c) -> cache_find (cache_remove c k) k = None.
Proof.
  induction c as [|[k' n'] c IH]; simpl; intros Hnd; [reflexivity|].
  inversion Hnd as [|? ? Hnin Hnd']; subst.
  destruct (shape_info_eqb k k') eqn:E.
  - apply shape_info_eqb_eq in E. subst. apply cache_find_absent.
    rewrite <- list_elem_of_In. exact Hnin.
  - simpl. rewrite E. apply IH. exact Hnd'.
Qed.

(** Setting one descriptor's count leaves the others'. *)
Lemma cache_find_set_neq (c : shape_cache) (k k' : shape_info) (n : nat) :
  k' <> k -> cache_find (cache_set c k n) k' = cache_find c k'.
Proof.
  intros Hne. induction c as [|[k0 n0] c IH]; simpl.
  - destruct (shape_info_eqb k' k) eqn:E; [apply shape_info_eqb_eq in E; congruence|reflexivity].
  - destruct (shape_info_eqb k k0) eqn:E0; simpl.
    + apply shape_info_eqb_eq in E0. subst k0.
      destruct (shape_info_eqb k' k) eqn:E; [apply shape_info_eqb_eq in E; congruence|reflexivity].
    + rewrite IH. reflexivity.
Qed.

(** Removing one descriptor leaves the others'. *)
Lemma cache_find_remove_neq (c : shape_cache) (k k' : shape_info) :
  k' <> k -> cache_find (cache_remove c k) k' = cache_find c k'.
Proof.
  intros Hne. induction c as [|[k0 n0] c IH]; simpl; [reflexivity|].
  destruct (shape_info_eqb k k0) eqn:E0; simpl.
  - apply shape_info_eqb_eq in E0. subst k0.
    destruct (shape_info_eqb k' k) eqn:E; [apply shape_info_eqb_eq in E; congruence|reflexivity].
  - rewrite IH. reflexivity.
Qed.

(** getShape on a cached or buildable descriptor returns the shape and counts one more reference. *)
Lemma getShape_hit (ok : shape_info -> bool) (info : shape_info) (s : engine) :
  (cache_find (e_shapes s) info <> None \/ ok info = true) ->
  getShape ok info s
  = Ret (Some info) (set_shapes (cache_set (e_shapes s) info (S (ref_count (e_shapes s) info))) s).
Proof.
  intros Hc. unfold getShape, ref_count, mbind, M_bind, gets, modify, mret, M_ret.
  destruct (cache_find (e_shapes s) info); [reflexivity|].
  destruct Hc as [Hc|Hok]; [congruence|rewrite Hok; reflexivity].
Qed.

(** The whole run of addEntity once the shape is found or built. *)
Lemma addEntity_run (ok : shape_info -> bool) (p : nat) (s : engine) (ms : motion_state) :
  e_proxies s !! p = Some ms ->
  (cache_find (e_shapes s) (ms_shape_info ms) <> None \/ ok (ms_shape_info ms) = true) ->
  exists b, addEntity_body_ok p ms b /\
    addEntity ok p s = Ret true
      (Engine (<[e_next s := b]> (e_bodies s)) (e_objects s) (e_world s ++ [e_next s])
         (<[p := with_body (Some (e_next s)) ms]> (e_proxies s))
         (cache_set (e_shapes s) (ms_shape_info ms) (S (ref_count (e_shapes s) (ms_shape_info ms))))
         (e_voxels s) (S (e_next s)) (e_steps s) (e_gravity s) (e_origin s)).
Proof.
  intros Hp Hc. unfold addEntity.
  erewrite bind_Ret by (unfold get_proxy; rewrite Hp; reflexivity). cbv beta.
  erewrite bind_Ret by exact (getShape_hit ok _ s Hc). cbv beta.
  set (s0 := set_shapes _ s).
  remember (_ s0) as o eqn:H. symmetry in H.
  unfold addEntity_body_ok.
  destruct (ms_motion_type ms) eqn:Ht;
    [ eng_go H
    | destruct (Qeq_bool (ms_mass ms) 0) eqn:Hq;
      simpl in H; set (inertia := calculateLocalInertia _ _) in H; clearbody inertia; eng_go H
    | eng_go H ];
    subst o; (eexists; split; [|reflexivity]); simpl; rewrite ?Hq; repeat split.
Qed.

(** A flag mask shares a set bit with the flags. *)
Lemma flag_set_bit (x m : Z) (k : Z) :
  (0 <= k)%Z -> Z.testbit x k = true -> Z.testbit m k = true -> flag_set x m = true.
Proof.
  intros Hk Hx Hm. unfold flag_set. apply negb_true_iff, Z.eqb_neq. intros H0.
  assert (Hb : Z.testbit (Z.land x m) k = false) by (rewrite H0; apply Z.bits_0).
  rewrite Z.land_spec, Hx, Hm in Hb. discriminate Hb.
Qed.

(** A single-bit mask whose bit is clear in the flags. *)
Lemma flag_set_no_bit (x : Z) (k : Z) :
  (0 <= k)%Z -> Z.testbit x k = false -> flag_set x (2 ^ k) = false.
Proof.
  intros Hk Hx. unfold flag_set. apply negb_false_iff, Z.eqb_eq.
  apply Z.bits_inj'. intros n Hn. rewrite Z.land_spec, Z.bits_0, Z.pow2_bits_eqb by exact Hk.
  destruct (Z.eqb_spec k n); [subst; rewrite Hx; reflexivity | apply andb_false_r].
Qed.

(** The collision flags a hard update to Kinematic leaves (setMassProps(0)
    sets the static bit again). *)
Lemma kinematic_cflags_bits (c : Z) :
  let c' := Z.lor (Z.land (Z.lor c CF_KINEMATIC_OBJECT) (Z.lnot CF_STATIC_OBJECT)) CF_STATIC_OBJECT in
  flag_set c' CF_STATIC_OBJECT = true /\ flag_set c' CF_KINEMATIC_OBJECT = true /\
  flag_set c' (Z.lor CF_STATIC_OBJECT CF_KINEMATIC_OBJECT) = true.
Proof.
  intros c'. split; [|split].
  - apply (flag_set_bit _ _ 0); [lia| |reflexivity].
    unfold c'. rewrite Z.lor_spec. apply orb_true_r.
  - apply (flag_set_bit _ _ 1); [lia| |reflexivity].
    unfold c'. rewrite Z.lor_spec, Z.land_spec, Z.lor_spec, Z.lnot_spec by lia.
    simpl. rewrite orb_true_r. reflexivity.
  - apply (flag_set_bit _ _ 0); [lia| |reflexivity].
    unfold c'. rewrite Z.lor_spec. apply orb_true_r.
Qed.

(** The collision flags a hard update to Static leaves. *)
Lemma static_cflags_bits (c : Z) :
  let c' := Z.lor (Z.land (Z.lor c CF_STATIC_OBJECT) (Z.lnot CF_KINEMATIC_OBJECT)) CF_STATIC_OBJECT in
  flag_set c' CF_STATIC_OBJECT = true /\ flag_set c' CF_KINEMATIC_OBJECT = false /\
  flag_set c' (Z.lor CF_STATIC_OBJECT CF_KINEMATIC_OBJECT) = true.
Proof.
  intros c'. split; [|split].
  - apply (flag_set_bit _ _ 0); [lia| |reflexivity].
    unfold c'. rewrite Z.lor_spec. apply orb_true_r.
  - apply (flag_set_no_bit _ 1); [lia|].
    unfold c'. rewrite Z.lor_spec, Z.land_spec, Z.lor_spec, Z.lnot_spec by lia.
    simpl. rewrite andb_false_r. reflexivity.
  - apply (flag_set_bit _ _ 0); [lia| |reflexivity].
    unfold c'. rewrite Z.lor_spec. apply orb_true_r.
Qed.

(** The collision flags a hard update to Dynamic with a zero mass leaves. *)
Lemma dynamic_zero_cflags_bits (c : Z) :
  let c' := Z.lor (Z.land c (Z.lnot (Z.lor CF_KINEMATIC_OBJECT CF_STATIC_OBJECT))) CF_STATIC_OBJECT in
  flag_set c' CF_STATIC_OBJECT = true /\ flag_set c' CF_KINEMATIC_OBJECT = false /\
  flag_set c' (Z.lor CF_STATIC_OBJECT CF_KINEMATIC_OBJECT) = true.
Proof.
  intros c'. split; [|split].
  - apply (flag_set_bit _ _ 0); [lia| |reflexivity].
    unfold c'. rewrite Z.lor_spec. apply orb_true_r.
  - apply (flag_set_no_bit _ 1); [lia|].
    unfold c'. rewrite Z.lor_spec, Z.land_spec, Z.lnot_spec by lia.
    simpl. rewrite andb_false_r. reflexivity.
  - apply (flag_set_bit _ _ 0); [lia| |reflexivity].
    unfold c'. rewrite Z.lor_spec. apply orb_true_r.
Qed.

(** Mass is one of the hard flags. *)
Lemma flag_mass_hard (flags : Z) :
  flag_set flags PHYSICS_UPDATE_HARD = false -> flag_set flags PHYSICS_UPDATE_MASS = false.
Proof.
  unfold flag_set. rewrite !negb_false_iff, !Z.eqb_eq. intros Hh.
  change PHYSICS_UPDATE_MASS with (Z.land PHYSICS_UPDATE_HARD PHYSICS_UPDATE_MASS).
  rewrite Z.land_assoc, Hh. reflexivity.
Qed.

(** An easy update changes only the body, and keeps its shape. *)
Lemma updateEntityEasy_keeps_shape (s : engine) (p id : nat) (flags : Z)
    (ms : motion_state) (b : rigid_body) (sh : shape_info) :
  e_proxies s !! p = Some ms -> ms_body ms = Some id -> e_bodies s !! id = Some b ->
  rb_shape b = Some sh ->
  exists b1, updateEntityEasy id p flags s = Ret tt (set_bodies (<[id:=b1]> (e_bodies s)) s) /\
    rb_shape b1 = Some sh.
Proof.
  intros Hp Hid Hb Hsh.
  remember (updateEntityEasy id p flags s) as o eqn:Ho. symmetry in Ho.
  unfold updateEntityEasy in Ho. eng_go Ho.
  destruct (Z.land flags PHYSICS_UPDATE_POSITION =? 0)%Z; eng_go Ho;
  destruct (Z.land flags PHYSICS_UPDATE_VELOCITY =? 0)%Z; eng_go Ho;
  destruct (Z.land flags PHYSICS_UPDATE_MASS =? 0)%Z; eng_go Ho;
  repeat (match type of Ho with
          | context [Qeq_bool ?x ?y] => destruct (Qeq_bool x y)
          | context [(?x =? ?y)%Z] => destruct (x =? y)%Z eqn:?
          end; simpl in Ho; eng_go Ho);
  subst o; eexists; (split; [reflexivity|]); simpl; auto.
Qed.

(** The Kinematic branch of the classification step. *)
Lemma applyMotionType_kinematic (s : engine) (p id : nat) (flags : Z) (b : rigid_body) :
  e_bodies s !! id = Some b ->
  exists b2, applyMotionType id p MOTION_TYPE_KINEMATIC flags s
             = Ret tt (set_bodies (<[id:=b2]> (e_bodies s)) s) /\
    rb_cflags b2 = Z.lor (Z.land (Z.lor (rb_cflags b) CF_KINEMATIC_OBJECT)
                            (Z.lnot CF_STATIC_OBJECT)) CF_STATIC_OBJECT /\
    rb_act b2 = DISABLE_DEACTIVATION /\ rb_mass b2 = 0%Q /\ rb_shape b2 = rb_shape b.
Proof.
  intros Hb. remember (applyMotionType _ _ _ _ s) as o eqn:Ho. symmetry in Ho.
  unfold applyMotionType in Ho. eng_go Ho. subst o.
  eexists. split; [reflexivity|]. simpl. repeat split.
Qed.

(** The Static branch of the classification step. *)
Lemma applyMotionType_static (s : engine) (p id : nat) (flags : Z) (b : rigid_body) :
  e_bodies s !! id = Some b ->
  exists b2, applyMotionType id p MOTION_TYPE_STATIC flags s
             = Ret tt (set_bodies (<[id:=b2]> (e_bodies s)) s) /\
    rb_cflags b2 = Z.lor (Z.land (Z.lor (rb_cflags b) CF_STATIC_OBJECT)
                            (Z.lnot CF_KINEMATIC_OBJECT)) CF_STATIC_OBJECT /\
    rb_act b2 = DISABLE_SIMULATION /\ rb_mass b2 = 0%Q /\ rb_shape b2 = rb_shape b /\
    rb_linvel b2 = vzero /\ rb_angvel b2 = vzero.
Proof.
  intros Hb. remember (applyMotionType _ _ _ _ s) as o eqn:Ho. symmetry in Ho.
  unfold applyMotionType in Ho. eng_go Ho. subst o.
  eexists. split; [reflexivity|]. simpl. repeat split.
Qed.

(** The Dynamic branch of the classification step with a zero mass. *)
Lemma applyMotionType_dynamic_zero_mass (s : engine) (p id : nat) (flags : Z)
    (ms : motion_state) (b : rigid_body) (sh : shape_info) :
  e_proxies s !! p = Some ms -> e_bodies s !! id = Some b -> rb_shape b = Some sh ->
  Qeq_bool (ms_mass ms) 0 = true -> flag_set flags PHYSICS_UPDATE_MASS = false ->
  rb_act b <> DISABLE_DEACTIVATION -> rb_act b <> DISABLE_SIMULATION ->
  exists b2, applyMotionType id p MOTION_TYPE_DYNAMIC flags s
             = Ret tt (set_bodies (<[id:=b2]> (e_bodies s)) s) /\
    rb_cflags b2 = Z.lor (Z.land (rb_cflags b) (Z.lnot (Z.lor CF_KINEMATIC_OBJECT CF_STATIC_OBJECT)))
                     CF_STATIC_OBJECT /\
    rb_act b2 = ACTIVE_TAG /\ rb_mass b2 = ms_mass ms /\ rb_shape b2 = Some sh.
Proof.
  intros Hp Hb Hsh Hq Hma H4 H5.
  apply Z.eqb_neq in H4, H5. unfold DISABLE_DEACTIVATION in H4. unfold DISABLE_SIMULATION in H5.
  remember (applyMotionType id p MOTION_TYPE_DYNAMIC flags s) as o eqn:Ho. symmetry in Ho.
  unfold applyMotionType in Ho. rewrite Hma in Ho. eng_go Ho. subst o.
  eexists. split; [reflexivity|]. simpl. repeat split.
Qed.

(** Re-inserting a shaped static body whose activation is pinned puts it
    back in the world unchanged. *)
Lemma addRigidBody_pinned_static (s : engine) (id : nat) (b : rigid_body) (sh : shape_info) :
  e_bodies s !! id = Some b -> rb_shape b = Some sh ->
  isStaticOrKinematicObject b = true -> isStaticObject b = true ->
  (rb_act b = DISABLE_DEACTIVATION \/ rb_act b = DISABLE_SIMULATION) ->
  addRigidBody id s = Ret tt (set_world (e_world s ++ [id]) (set_bodies (<[id:=b]> (e_bodies s)) s)).
Proof.
  intros Hb Hsh Hsk Hst Hact.
  unfold addRigidBody. erewrite bind_Ret by reflexivity. erewrite bind_Ret.
  2:{ unfold get_body. rewrite Hb. reflexivity. }
  rewrite Hsk. simpl. rewrite Hsh, Hst.
  assert (Hs : setActivationState ISLAND_SLEEPING b = b).
  { unfold setActivationState. destruct Hact as [-> | ->]; reflexivity. }
  rewrite Hs. reflexivity.
Qed.

(** Re-inserting a shaped static body whose activation is not pinned puts
    it back in the world asleep. *)
Lemma addRigidBody_static_sleeps (s : engine) (id : nat) (b : rigid_body) (sh : shape_info) :
  e_bodies s !! id = Some b -> rb_shape b = Some sh ->
  isStaticOrKinematicObject b = true -> isStaticObject b = true ->
  rb_act b <> DISABLE_DEACTIVATION -> rb_act b <> DISABLE_SIMULATION ->
  addRigidBody id s = Ret tt (set_world (e_world s ++ [id])
                                (set_bodies (<[id:=with_act ISLAND_SLEEPING b]> (e_bodies s)) s)).
Proof.
  intros Hb Hsh Hsk Hst H4 H5.
  unfold addRigidBody. erewrite bind_Ret by reflexivity. erewrite bind_Ret.
  2:{ unfold get_body. rewrite Hb. reflexivity. }
  rewrite Hsk. simpl. rewrite Hsh, Hst. unfold setActivationState.
  apply Z.eqb_neq in H4, H5. rewrite H4, H5. reflexivity.
Qed.

(** The steps of a hard update up to the new classification, when the
    Shape flag is clear. *)
Lemma updateEntity_hard_prefix (ok : shape_info -> bool) (dbg : bool) (s : engine)
    (p id : nat) (ms : motion_state) (b : rigid_body) (sh : shape_info) (flags : Z) :
  e_proxies s !! p = Some ms -> ms_body ms = Some id -> e_bodies s !! id = Some b ->
  rb_shape b = Some sh ->
  flag_set flags PHYSICS_UPDATE_HARD = true -> flag_set flags PHYSICS_UPDATE_SHAPE = false ->
  exists b1, rb_shape b1 = Some sh /\
    updateEntity ok dbg p flags s =
      (applyMotionType id p (ms_motion_type ms) flags;;
       (addRigidBody id;; modify_body id (activate false));; mret true)
        (set_bodies (<[id:=b1]> (e_bodies s)) (set_world (remove_first id (e_world s)) s)).
Proof.
  intros Hp Hid Hb Hsh Hh Hs.
  unfold updateEntity. erewrite bind_Ret by (unfold get_proxy; rewrite Hp; reflexivity).
  cbv beta. rewrite Hid, Hh. unfold updateEntityHard. rewrite !bind_assoc_run.
  erewrite bind_Ret by (unfold get_proxy; rewrite Hp; reflexivity). cbv beta zeta.
  rewrite !bind_assoc_run.
  erewrite bind_Ret by (unfold get_body; rewrite Hb; reflexivity). cbv beta.
  rewrite !bind_assoc_run.
  erewrite bind_Ret by reflexivity. cbv beta. rewrite Hs, !bind_assoc_run.
  erewrite bind_Ret by reflexivity. cbv beta. rewrite !bind_assoc_run.
  set (s0 := set_world (remove_first id (e_world s)) s).
  destruct (flag_set flags PHYSICS_UPDATE_EASY).
  - destruct (updateEntityEasy_keeps_shape s0 p id flags ms b sh) as (b1 & He & Hsh1); auto.
    exists b1. split; [exact Hsh1|]. erewrite bind_Ret by exact He. cbv beta.
    rewrite !bind_assoc_run. reflexivity.
  - exists b. split; [exact Hsh|]. erewrite bind_Ret by reflexivity. cbv beta.
    rewrite !bind_assoc_run. rewrite insert_id by exact Hb.
    replace (set_bodies (e_bodies s0) s0) with s0 by (destruct s0; reflexivity).
    reflexivity.
Qed.

(** The same steps when the Mass flag is clear too: the activation is
    kept or made active. *)
Lemma updateEntity_hard_prefix_no_mass (ok : shape_info -> bool) (dbg : bool) (s : engine)
    (p id : nat) (ms : motion_state) (b : rigid_body) (sh : shape_info) (flags : Z) :
  e_proxies s !! p = Some ms -> ms_body ms = Some id -> e_bodies s !! id = Some b ->
  rb_shape b = Some sh ->
  flag_set flags PHYSICS_UPDATE_HARD = true -> flag_set flags PHYSICS_UPDATE_SHAPE = false ->
  flag_set flags PHYSICS_UPDATE_MASS = false ->
  exists b1, rb_shape b1 = Some sh /\ (rb_act b1 = rb_act b \/ rb_act b1 = ACTIVE_TAG) /\
    updateEntity ok dbg p flags s =
      (applyMotionType id p (ms_motion_type ms) flags;;
       (addRigidBody id;; modify_body id (activate false));; mret true)
        (set_bodies (<[id:=b1]> (e_bodies s)) (set_world (remove_first id (e_world s)) s)).
Proof.
  intros Hp Hid Hb Hsh Hh Hs Hma.
  unfold updateEntity. erewrite bind_Ret by (unfold get_proxy; rewrite Hp; reflexivity).
  cbv beta. rewrite Hid, Hh. unfold updateEntityHard. rewrite !bind_assoc_run.
  erewrite bind_Ret by (unfold get_proxy; rewrite Hp; reflexivity). cbv beta zeta.
  rewrite !bind_assoc_run.
  erewrite bind_Ret by (unfold get_body; rewrite Hb; reflexivity). cbv beta.
  rewrite !bind_assoc_run.
  erewrite bind_Ret by reflexivity. cbv beta. rewrite Hs, !bind_assoc_run.
  erewrite bind_Ret by reflexivity. cbv beta. rewrite !bind_assoc_run.
  set (s0 := set_world (remove_first id (e_world s)) s).
  destruct (flag_set flags PHYSICS_UPDATE_EASY).
  - destruct (updateEntityEasy_keeps_kind s0 p id flags ms b) as (b1 & He & _ & Hsh1 & Ha1); auto.
    exists b1. split; [congruence|]. split; [exact Ha1|]. erewrite bind_Ret by exact He.
    cbv beta. rewrite !bind_assoc_run. reflexivity.
  - exists b. split; [exact Hsh|]. split; [left; reflexivity|].
    erewrite bind_Ret by reflexivity. cbv beta.
    rewrite !bind_assoc_run. rewrite insert_id by exact Hb.
    replace (set_bodies (e_bodies s0) s0) with s0 by (destruct s0; reflexivity).
    reflexivity.
Qed.

(* ------------------------------------------------------------------ *)
(** ** Claims *)

(** C1: addEntity on a proxy that already has its body builds and inserts a
    second body: afterwards two world bodies have the proxy as motion state
    and the back-reference names only the second one. *)
Theorem addEntity_twice_inserts_two_bodies :
  proxy_body dynamic_box_engine 0 = Some 0 /\
  world_bodies_of dynamic_box_engine 0 = [0] /\
  exists s2, addEntity accept_all 0 dynamic_box_engine = Ret true s2 /\
    proxy_body s2 0 = Some 1 /\ world_bodies_of s2 0 = [0; 1].
Proof.
  split; [vm_compute; reflexivity|]. split; [vm_compute; reflexivity|].
  eexists. split; [vm_compute; reflexivity|]. split; vm_compute; reflexivity.
Qed.

(** C2: the back-reference and the registration fall out of step.  (a) After
    addEntity twice and removeEntity once, the back-reference is null while
    a body of the proxy is still in the world.  (b) A hard update with Shape
    and Mass whose new descriptor the shape factory refuses gives the body a
    null shape, which addRigidBody does not re-insert: the back-reference
    stays set while no world body has the proxy. *)
Theorem back_reference_out_of_step :
  (exists s2 s3,
     addEntity accept_all 0 dynamic_box_engine = Ret true s2 /\
     removeEntity 0 s2 = Ret true s3 /\
     proxy_body s3 0 = None /\ world_bodies_of s3 0 = [0]) /\
  (exists s1,
     proxy_body static_unit_engine 0 = Some 0 /\ world_bodies_of static_unit_engine 0 = [0] /\
     updateEntity unit_box_only false 0
       (Z.lor PHYSICS_UPDATE_SHAPE PHYSICS_UPDATE_MASS)
       (proxy0_shape (setBox (vsplat 1)) static_unit_engine) = Ret true s1 /\
     proxy_body s1 0 = Some 0 /\ world_bodies_of s1 0 = []).
Proof.
  split.
  - do 2 eexists. split; [vm_compute; reflexivity|]. split; [vm_compute; reflexivity|].
    split; vm_compute; reflexivity.
  - eexists. split; [vm_compute; reflexivity|]. split; [vm_compute; reflexivity|].
    split; [vm_compute; reflexivity|]. split; vm_compute; reflexivity.
Qed.

(** C3 (code bug): a static body whose proxy now reports Dynamic with mass 2
    is not always left active with that mass by a hard update.  (a) A body
    that an earlier hard update made static holds DISABLE_SIMULATION, which
    the Dynamic branch's activate(true) cannot override, so after the update
    back to Dynamic it is still not simulated.  (b) With Mass among the flags
    but no Easy flag, the Dynamic branch skips setMassProps and
    updateEntityEasy does not run, so the body that turns Dynamic keeps
    mass 0. *)
Lemma static_to_dynamic_counterexample :
  (exists s' b,
     option_map isStaticObject (e_bodies made_static_engine !! 0) = Some true /\
     updateEntity accept_all false 0 PHYSICS_UPDATE_MOTION_TYPE
       (proxy0_reports MOTION_TYPE_DYNAMIC 2 made_static_engine) = Ret true s' /\
     e_bodies s' !! 0 = Some b /\ rb_act b = DISABLE_SIMULATION) /\
  (exists s' b,
     option_map isStaticObject (e_bodies static_box_engine !! 0) = Some true /\
     updateEntity accept_all false 0 (Z.lor PHYSICS_UPDATE_MOTION_TYPE PHYSICS_UPDATE_MASS)
       (proxy0_reports MOTION_TYPE_DYNAMIC 2 static_box_engine) = Ret true s' /\
     e_bodies s' !! 0 = Some b /\ rb_mass b = 0%Q).
Proof.
  split; do 2 eexists; (split; [vm_compute; reflexivity|]);
    (split; [vm_compute; reflexivity|]); split; vm_compute; reflexivity.
Qed.

(** C4: a hard update with the Shape flag whose new descriptor is the one
    of the cached shape the body already holds leaves the reference count of
    that descriptor as it was (also when the update aborts afterwards). *)
Theorem hard_shape_update_same_shape_ref_count (ok : shape_info -> bool) (dbg : bool)
    (s : engine) (p id : nat) (ms : motion_state) (b : rigid_body) (flags : Z) :
  e_proxies s !! p = Some ms -> ms_body ms = Some id -> e_bodies s !! id = Some b ->
  flag_set flags PHYSICS_UPDATE_SHAPE = true ->
  rb_shape b = Some (ms_shape_info ms) ->
  cache_find (e_shapes s) (ms_shape_info ms) <> None ->
  cache_wf (e_shapes s) ->
  ref_count (e_shapes (outcome_state (updateEntity ok dbg p flags s))) (ms_shape_info ms)
  = ref_count (e_shapes s) (ms_shape_info ms).
Proof.
  intros Hp Hid Hb Hs Hsh Hc Hwf.
  destruct (cache_find (e_shapes s) (ms_shape_info ms)) as [n|] eqn:Hn; [clear Hc|congruence].
  f_equal.
  unfold updateEntity. erewrite bind_Ret by (unfold get_proxy; rewrite Hp; reflexivity).
  cbv beta. rewrite Hid, (flag_shape_hard _ Hs).
  rewrite shapes_bind_keeps by (intros; apply keeps_ret).
  unfold updateEntityHard.
  erewrite bind_Ret by (unfold get_proxy; rewrite Hp; reflexivity). cbv beta zeta.
  erewrite bind_Ret by (unfold get_body; rewrite Hb; reflexivity). cbv beta.
  erewrite bind_Ret by reflexivity. cbv beta. rewrite Hs.
  destruct (hardShapeSwap_same ok (set_world (remove_first id (e_world s)) s) p id ms b n)
    as (s1 & Hsw & Hs1); auto.
  { eapply cache_wf_find; eauto. }
  rewrite bind_assoc_run. erewrite bind_Ret by exact Hsw. cbv beta.
  rewrite keeps_hard_rest. exact Hs1.
Qed.

(** Witness of the C4 theorem at a concrete state. *)
Lemma hard_shape_update_same_shape_ref_count_witness :
  let b := body_at dynamic_box_engine 0 in
  e_bodies dynamic_box_engine !! 0 = Some b /\
    e_proxies dynamic_box_engine !! 0 = Some dyn_proxy0 /\
    flag_set (Z.lor PHYSICS_UPDATE_SHAPE PHYSICS_UPDATE_MASS) PHYSICS_UPDATE_SHAPE = true /\
    rb_shape b = Some (ms_shape_info dyn_proxy0) /\
    cache_find (e_shapes dynamic_box_engine) (ms_shape_info dyn_proxy0) <> None /\
    cache_wf (e_shapes dynamic_box_engine) /\
    ref_count (e_shapes (outcome_state (updateEntity accept_all true 0
                 (Z.lor PHYSICS_UPDATE_SHAPE PHYSICS_UPDATE_MASS) dynamic_box_engine)))
              (ms_shape_info dyn_proxy0)
    = ref_count (e_shapes dynamic_box_engine) (ms_shape_info dyn_proxy0).
Proof.
  intros b. split; [vm_compute; reflexivity|].
  assert (Hp : e_proxies dynamic_box_engine !! 0 = Some dyn_proxy0) by (vm_compute; reflexivity).
  assert (Hwf : cache_wf (e_shapes dynamic_box_engine)).
  { vm_compute. constructor; [intro Hx; simpl in Hx; discriminate Hx|constructor]. }
  split; [exact Hp|]. split; [reflexivity|]. split; [vm_compute; reflexivity|].
  split; [neq_by_eval|]. split; [exact Hwf|].
  eapply hard_shape_update_same_shape_ref_count;
    [exact Hp|reflexivity|vm_compute; reflexivity|reflexivity|vm_compute; reflexivity
    |neq_by_eval|exact Hwf].
Defined.

(** C5: a successful addVoxel followed by removeVoxel with the same
    position and scale succeeds and leaves the reference count of the box
    descriptor as it was before the pair of calls. *)
Theorem addVoxel_removeVoxel_ref_count (ok : shape_info -> bool) (dbg : bool)
    (position : vec3) (scale : Q) (s s1 : engine) :
  cache_wf (e_shapes s) ->
  addVoxel ok position scale s = Ret true s1 ->
  exists s2, removeVoxel dbg position scale s1 = Ret true s2 /\
    ref_count (e_shapes s2) (setBox (vsplat ((1 # 2) * scale)))
    = ref_count (e_shapes s) (setBox (vsplat ((1 # 2) * scale))).
Proof.
  intros Hwf H. unfold addVoxel in H.
  set (info := setBox _) in *. set (key := PositionHashKey _) in *.
  eng_go H.
  destruct (voxel_find (e_voxels s) key) eqn:Hv; [discriminate|].
  destruct (cache_find (e_shapes s) info) eqn:Hc; [|destruct (ok info) eqn:Hok];
    eng_go H; try discriminate; injection H as <-.
  - remember (removeVoxel dbg position scale _) as o eqn:Ho. symmetry in Ho.
    unfold removeVoxel in Ho. fold info key in Ho. eng_go Ho.
    destruct n as [|n]; [exfalso; exact (cache_wf_find _ _ _ Hwf Hc eq_refl)|].
    simpl in Ho. rewrite andb_false_r in Ho. simpl in Ho. subst o. eexists. split; [reflexivity|].
    unfold ref_count. simpl. rewrite ?cache_set_set, cache_find_set_eq, Hc.
    reflexivity.
  - remember (removeVoxel dbg position scale _) as o eqn:Ho. symmetry in Ho.
    unfold removeVoxel in Ho. fold info key in Ho. eng_go Ho.
    simpl in Ho. rewrite andb_false_r in Ho. simpl in Ho. subst o. eexists. split; [reflexivity|].
    unfold ref_count. simpl. rewrite cache_remove_set_new, Hc; auto.
Qed.

(** Witness of the C5 theorem at a concrete state. *)
Lemma addVoxel_removeVoxel_ref_count_witness :
  cache_wf (e_shapes dynamic_box_engine) /\
  addVoxel accept_all vzero 1 dynamic_box_engine
    = Ret true (run_state (addVoxel accept_all vzero 1) dynamic_box_engine) /\
  exists s2, removeVoxel true vzero 1 (run_state (addVoxel accept_all vzero 1) dynamic_box_engine)
             = Ret true s2 /\
    ref_count (e_shapes s2) (setBox (vsplat ((1 # 2) * 1)))
    = ref_count (e_shapes dynamic_box_engine) (setBox (vsplat ((1 # 2) * 1))).
Proof.
  assert (Hwf : cache_wf (e_shapes dynamic_box_engine)).
  { vm_compute. constructor; [intro Hx; simpl in Hx; discriminate Hx|constructor]. }
  assert (Ha : addVoxel accept_all vzero 1 dynamic_box_engine
               = Ret true (run_state (addVoxel accept_all vzero 1) dynamic_box_engine))
    by (vm_compute; reflexivity).
  split; [exact Hwf|]. split; [exact Ha|].
  exact (addVoxel_removeVoxel_ref_count accept_all true vzero 1 _ _ Hwf Ha).
Defined.

(** C6 (counterexample): when a voxel already sits at the pair's center, the
    first addVoxel of the two already returns false. *)
Lemma voxel_occupied_counterexample :
  let s := run_state (addVoxel accept_all vzero 1) (engine_with_proxy (mk_proxy MOTION_TYPE_STATIC 2)) in
  accept_all (setBox (vsplat ((1 # 2) * 1))) = true /\
  addVoxel accept_all vzero 1 s = Ret false s.
Proof.
  vm_compute. split; reflexivity.
Qed.

(** C6 (amended): from a state where no voxel sits at the canonical center
    of [(position, scale)] and whose box the shape factory accepts, two
    addVoxel calls return true then false (the second leaves the state
    untouched), and two removeVoxel calls then return true then false (the
    second leaves the state untouched). *)
Theorem voxel_add_add_remove_remove (ok : shape_info -> bool) (dbg : bool)
    (position : vec3) (scale : Q) (s : engine) :
  ok (setBox (vsplat ((1 # 2) * scale))) = true ->
  voxel_find (e_voxels s) (PositionHashKey (vadd position (vsplat ((1 # 2) * scale)))) = None ->
  exists s1 s2,
    addVoxel ok position scale s = Ret true s1 /\
    addVoxel ok position scale s1 = Ret false s1 /\
    removeVoxel dbg position scale s1 = Ret true s2 /\
    removeVoxel dbg position scale s2 = Ret false s2.
Proof.
  intros Hok Hv.
  set (info := setBox _) in *. set (key := PositionHashKey _) in *.
  remember (addVoxel ok position scale s) as o1 eqn:H1. symmetry in H1.
  unfold addVoxel in H1. fold info key in H1. eng_go H1.
  assert (Hadd : exists n s1, o1 = Ret true s1 /\ cache_find (e_shapes s1) info = Some n /\
                   e_voxels s1 = voxel_insert (e_voxels s) key
                                   (VoxelObject (vadd position (vsplat ((1 # 2) * scale))) (e_next s))).
  { destruct (cache_find (e_shapes s) info) eqn:Hc; eng_go H1; subst o1;
      do 2 eexists; (split; [reflexivity|]); simpl; rewrite cache_find_set_eq; eauto. }
  destruct Hadd as (n & s1 & -> & Hc1 & Hv1).
  assert (Hf1 : voxel_find (e_voxels s1) key
                = Some (VoxelObject (vadd position (vsplat ((1 # 2) * scale))) (e_next s)))
    by (rewrite Hv1; apply voxel_find_insert_eq).
  exists s1.
  remember (removeVoxel dbg position scale s1) as o2 eqn:H2. symmetry in H2.
  unfold removeVoxel in H2. fold info key in H2. eng_go H2.
  destruct (n <=? 1) eqn:Hn; simpl in H2; rewrite andb_false_r in H2; simpl in H2; subst o2;
    (eexists; split; [reflexivity|]; split;
     [ unfold addVoxel; fold info key; eng_eval; reflexivity
     | split; [reflexivity|]; unfold removeVoxel; fold info key; eng_eval; reflexivity ]).
Qed.

(** Witness of the C6 theorem at a concrete state. *)
Lemma voxel_add_add_remove_remove_witness :
  accept_all (setBox (vsplat ((1 # 2) * 1))) = true /\
  voxel_find (e_voxels dynamic_box_engine) (PositionHashKey (vadd vzero (vsplat ((1 # 2) * 1))))
    = None /\
  exists s1 s2,
    addVoxel accept_all vzero 1 dynamic_box_engine = Ret true s1 /\
    addVoxel accept_all vzero 1 s1 = Ret false s1 /\
    removeVoxel true vzero 1 s1 = Ret true s2 /\
    removeVoxel true vzero 1 s2 = Ret false s2.
Proof.
  split; [reflexivity|]. split; [vm_compute; reflexivity|].
  apply voxel_add_add_remove_remove; [reflexivity|vm_compute; reflexivity].
Defined.

(** C7: an update with only the Velocity flag leaves the body's collision
    flags and world transform as they were and writes the proxy's
    velocities onto the body. *)
Theorem updateEntity_velocity_only (ok : shape_info -> bool) (dbg : bool) (s : engine)
    (p id : nat) (ms : motion_state) (b : rigid_body) :
  e_proxies s !! p = Some ms -> ms_body ms = Some id -> e_bodies s !! id = Some b ->
  exists s' b', updateEntity ok dbg p PHYSICS_UPDATE_VELOCITY s = Ret true s' /\
    e_bodies s' !! id = Some b' /\
    rb_cflags b' = rb_cflags b /\ rb_transform b' = rb_transform b /\
    rb_linvel b' = ms_linvel ms /\ rb_angvel b' = ms_angvel ms.
Proof.
  intros Hp Hid Hb.
  remember (updateEntity ok dbg p PHYSICS_UPDATE_VELOCITY s) as o eqn:Ho.
  symmetry in Ho. unfold updateEntity, updateEntityEasy in Ho. eng_go Ho.
  subst o. do 2 eexists. split; [reflexivity|]. simpl. rewrite lookup_insert_eq.
  split; [reflexivity|]. repeat case_match; repeat split.
Qed.

(** Witness of the C7 theorem at a concrete state. *)
Lemma updateEntity_velocity_only_witness :
  let b := body_at dynamic_box_engine 0 in
  e_bodies dynamic_box_engine !! 0 = Some b /\
    e_proxies dynamic_box_engine !! 0 = Some dyn_proxy0 /\ ms_body dyn_proxy0 = Some 0 /\
    exists s' b', updateEntity accept_all true 0 PHYSICS_UPDATE_VELOCITY dynamic_box_engine
                  = Ret true s' /\
      e_bodies s' !! 0 = Some b' /\
      rb_cflags b' = rb_cflags b /\ rb_transform b' = rb_transform b /\
      rb_linvel b' = ms_linvel dyn_proxy0 /\ rb_angvel b' = ms_angvel dyn_proxy0.
Proof.
  intros b. split; [vm_compute; reflexivity|].
  assert (Hp : e_proxies dynamic_box_engine !! 0 = Some dyn_proxy0) by (vm_compute; reflexivity).
  split; [exact Hp|]. split; [reflexivity|].
  eapply updateEntity_velocity_only; [exact Hp|reflexivity|vm_compute; reflexivity].
Defined.

(** C8: when the elapsed time exceeds the maximum timestep, stepSimulation
    passes exactly the maximum timestep to the simulator's step. *)
Theorem stepSimulation_clamps_to_max (elapsed_us : Z) (s : engine) :
  (MAX_TIMESTEP < step_dt elapsed_us)%Q ->
  stepSimulation elapsed_us s =
    Ret tt (set_steps (e_steps s ++ [StepCall MAX_TIMESTEP MAX_NUM_SUBSTEPS FIXED_SUBSTEP]) s).
Proof.
  intros Hlt. unfold stepSimulation, btMin, modify.
  assert (Hle : Qle_bool MAX_TIMESTEP (step_dt elapsed_us) = true).
  { apply Qle_bool_iff. apply Qlt_le_weak. exact Hlt. }
  rewrite Hle. reflexivity.
Qed.

(** Witness of the C8 theorem at a concrete state. *)
Lemma stepSimulation_clamps_to_max_witness :
  (MAX_TIMESTEP < step_dt 100000)%Q /\
  stepSimulation 100000 dynamic_box_engine =
    Ret tt (set_steps (e_steps dynamic_box_engine ++
                       [StepCall MAX_TIMESTEP MAX_NUM_SUBSTEPS FIXED_SUBSTEP]) dynamic_box_engine).
Proof.
  split; [vm_compute; reflexivity|].
  apply stepSimulation_clamps_to_max. vm_compute. reflexivity.
Defined.

(** C9 (counterexample): with assertions compiled out, an update with Shape
    but not Mass is applied and returns true; with assertions compiled in it
    aborts only after the body has left the world. *)
Lemma shape_without_mass_counterexample :
  (exists s', updateEntity accept_all false 0 PHYSICS_UPDATE_SHAPE dynamic_box_engine
              = Ret true s') /\
  (exists s1, updateEntity accept_all true 0 PHYSICS_UPDATE_SHAPE dynamic_box_engine
              = Crash s1 /\ e_world dynamic_box_engine = [0] /\ e_world s1 = []).
Proof.
  split; eexists; [vm_compute; reflexivity|].
  split; [vm_compute; reflexivity|]. split; vm_compute; reflexivity.
Qed.

(** C9 (amended): with assertions compiled in, updateEntity with Shape but
    not Mass on a registered proxy aborts in the state reached after the
    body was removed from the world and the shape was swapped, not at the
    operation's boundary. *)
Theorem updateEntity_shape_without_mass_aborts_late (ok : shape_info -> bool) (s : engine)
    (p id : nat) (ms : motion_state) (b : rigid_body) (flags : Z) :
  e_proxies s !! p = Some ms -> ms_body ms = Some id -> e_bodies s !! id = Some b ->
  flag_set flags PHYSICS_UPDATE_SHAPE = true -> flag_set flags PHYSICS_UPDATE_MASS = false ->
  exists s1,
    hardShapeSwap ok id p (set_world (remove_first id (e_world s)) s) = Ret tt s1 /\
    updateEntity ok true p flags s = Crash s1.
Proof.
  intros Hp Hid Hb Hs Hma.
  destruct (hardShapeSwap_returns ok (set_world (remove_first id (e_world s)) s) p id ms b)
    as (s1 & Hsw); auto.
  exists s1. split; [exact Hsw|].
  unfold updateEntity. erewrite bind_Ret by (unfold get_proxy; rewrite Hp; reflexivity).
  cbv beta. rewrite Hid, (flag_shape_hard _ Hs).
  unfold updateEntityHard.
  rewrite bind_assoc_run.
  erewrite bind_Ret by (unfold get_proxy; rewrite Hp; reflexivity). cbv beta zeta.
  rewrite bind_assoc_run.
  erewrite bind_Ret by (unfold get_body; rewrite Hb; reflexivity). cbv beta.
  rewrite bind_assoc_run.
  erewrite bind_Ret by reflexivity. cbv beta. rewrite Hs, !bind_assoc_run.
  erewrite bind_Ret by exact Hsw. cbv beta. rewrite Hma. reflexivity.
Qed.

(** Witness of the C9 theorem at a concrete state. *)
Lemma updateEntity_shape_without_mass_aborts_late_witness :
  let b := body_at dynamic_box_engine 0 in
  e_bodies dynamic_box_engine !! 0 = Some b /\
    e_proxies dynamic_box_engine !! 0 = Some dyn_proxy0 /\
    flag_set PHYSICS_UPDATE_SHAPE PHYSICS_UPDATE_SHAPE = true /\
    flag_set PHYSICS_UPDATE_SHAPE PHYSICS_UPDATE_MASS = false /\
    exists s1,
      hardShapeSwap accept_all 0 0
        (set_world (remove_first 0 (e_world dynamic_box_engine)) dynamic_box_engine)
      = Ret tt s1 /\
      updateEntity accept_all true 0 PHYSICS_UPDATE_SHAPE dynamic_box_engine = Crash s1.
Proof.
  intros b. split; [vm_compute; reflexivity|].
  assert (Hp : e_proxies dynamic_box_engine !! 0 = Some dyn_proxy0) by (vm_compute; reflexivity).
  split; [exact Hp|]. split; [reflexivity|]. split; [reflexivity|].
  eapply updateEntity_shape_without_mass_aborts_late;
    [exact Hp|reflexivity|vm_compute; reflexivity|reflexivity|reflexivity].
Defined.

(** C10: every body that addEntity creates carries BT_DISABLE_WORLD_GRAVITY
    once it is in the world, and its gravity is the proxy's own (applied by
    applyGravity) for a dynamic body, zero otherwise: the world's gravity is
    never given to it. *)
Theorem addEntity_disables_world_gravity (ok : shape_info -> bool) (s s' : engine)
    (p : nat) (ms : motion_state) :
  e_proxies s !! p = Some ms ->
  addEntity ok p s = Ret true s' ->
  exists id b, proxy_body s' p = Some id /\ e_bodies s' !! id = Some b /\
    In id (e_world s') /\
    flag_set (rb_flags b) BT_DISABLE_WORLD_GRAVITY = true /\
    rb_gravity b = match ms_motion_type ms with
                   | MOTION_TYPE_DYNAMIC => ms_gravity ms
                   | _ => vzero
                   end.
Proof.
  intros Hp H. unfold addEntity, proxy_body in *.
  eng_go H.
  destruct (cache_find _ _) eqn:Hc; [|destruct (ok _)];
    destruct (ms_motion_type ms) eqn:Ht; eng_go H; try discriminate;
    split_Qeq H; injection H as <-; simpl;
    rewrite ?lookup_insert_eq, ?insert_insert_eq; simpl;
    (eexists _, _; split; [reflexivity|split; [rewrite ?lookup_insert_eq; reflexivity|]]);
    simpl; (split; [apply in_or_app; right; left; reflexivity|]);
    split; reflexivity.
Qed.

(** Witness of the C10 theorem at a concrete state. *)
Lemma addEntity_disables_world_gravity_witness :
  e_proxies (engine_with_proxy (mk_proxy MOTION_TYPE_DYNAMIC 2)) !! 0
    = Some (mk_proxy MOTION_TYPE_DYNAMIC 2) /\
  addEntity accept_all 0 (engine_with_proxy (mk_proxy MOTION_TYPE_DYNAMIC 2))
    = Ret true dynamic_box_engine /\
  exists id b, proxy_body dynamic_box_engine 0 = Some id /\
    e_bodies dynamic_box_engine !! id = Some b /\ In id (e_world dynamic_box_engine) /\
    flag_set (rb_flags b) BT_DISABLE_WORLD_GRAVITY = true /\
    rb_gravity b = ms_gravity (mk_proxy MOTION_TYPE_DYNAMIC 2).
Proof.
  assert (Hp : e_proxies (engine_with_proxy (mk_proxy MOTION_TYPE_DYNAMIC 2)) !! 0
               = Some (mk_proxy MOTION_TYPE_DYNAMIC 2)) by reflexivity.
  assert (Ha : addEntity accept_all 0 (engine_with_proxy (mk_proxy MOTION_TYPE_DYNAMIC 2))
               = Ret true dynamic_box_engine) by (vm_compute; reflexivity).
  split; [exact Hp|]. split; [exact Ha|].
  exact (addEntity_disables_world_gravity accept_all _ _ 0 _ Hp Ha).
Defined.


(* ------------------------------------------------------------------ *)
(** ** Further properties of the engine operations *)

(** X1: init with no world yet creates one with gravity (0,-10,0) and no step
    made, holding only a static 400 x 2 x 400 ground box centred at
    (200,-1,200), without touching the shape cache, the bodies or the
    proxies; a second init does nothing. *)
Theorem init_creates_ground_once (s : engine) :
  exists s', init false s = Ret true s' /\
    e_world s' = [e_next s] /\
    e_objects s' !! e_next s
      = Some (CollObject (Some (BoxShape (Vec3 200 1 200))) (Transform (Vec3 200 (-1) 200) vzero)) /\
    e_gravity s' = Vec3 0 (-10) 0 /\ e_steps s' = [] /\
    e_shapes s' = e_shapes s /\ e_bodies s' = e_bodies s /\ e_proxies s' = e_proxies s /\
    init true s' = Ret true s'.
Proof.
  eexists. split.
  { unfold init, mbind, M_bind, mret, M_ret, modify, alloc, addCollisionObject. reflexivity. }
  simpl. rewrite lookup_insert_eq. repeat split.
Qed.

(** X2: stepSimulation records exactly one step call, with the fixed substep and
    the maximum substep count; its time step never exceeds MAX_TIMESTEP and
    is the elapsed time when that is below MAX_TIMESTEP. *)
Theorem stepSimulation_timestep (elapsed_us : Z) (s : engine) :
  exists timeStep,
    stepSimulation elapsed_us s =
      Ret tt (set_steps (e_steps s ++ [StepCall timeStep MAX_NUM_SUBSTEPS FIXED_SUBSTEP]) s) /\
    (timeStep <= MAX_TIMESTEP)%Q /\
    ((step_dt elapsed_us < MAX_TIMESTEP)%Q -> timeStep = step_dt elapsed_us).
Proof.
  unfold stepSimulation, btMin, modify.
  destruct (Qle_bool MAX_TIMESTEP (step_dt elapsed_us)) eqn:Hle; simpl.
  - exists MAX_TIMESTEP. split; [reflexivity|]. split; [apply Qle_refl|].
    intros Hlt. apply Qle_bool_iff in Hle. exfalso. apply (Qlt_not_le _ _ Hlt). exact Hle.
  - exists (step_dt elapsed_us). split; [reflexivity|]. split; [|reflexivity].
    apply Qlt_le_weak, Qnot_le_lt. intros Hle'. apply Qle_bool_iff in Hle'. congruence.
Qed.

(** Witness of X2 at an elapsed time of 1 ms. *)
Lemma stepSimulation_timestep_witness :
  exists timeStep,
    stepSimulation 1000 (engine_with_proxy (mk_proxy MOTION_TYPE_STATIC 2)) =
      Ret tt (set_steps [StepCall timeStep MAX_NUM_SUBSTEPS FIXED_SUBSTEP]
                (engine_with_proxy (mk_proxy MOTION_TYPE_STATIC 2))) /\
    (timeStep <= MAX_TIMESTEP)%Q /\
    ((step_dt 1000 < MAX_TIMESTEP)%Q -> timeStep = step_dt 1000).
Proof. exact (stepSimulation_timestep 1000 (engine_with_proxy (mk_proxy MOTION_TYPE_STATIC 2))). Defined.

(** X3: addVoxel on a voxel key already present returns false and changes
    nothing. *)
Theorem addVoxel_occupied_noop (ok : shape_info -> bool) (position : vec3) (scale : Q)
    (s : engine) (v : voxel_object) :
  voxel_find (e_voxels s) (PositionHashKey (vadd position (vsplat ((1 # 2) * scale)))) = Some v ->
  addVoxel ok position scale s = Ret false s.
Proof. intros Hv. unfold addVoxel. eng_eval. reflexivity. Qed.

(** Witness of X3: adding the unit voxel at the origin a second time. *)
Lemma addVoxel_occupied_noop_witness :
  let s := one_voxel_engine in
  let k := PositionHashKey (vadd vzero (vsplat ((1 # 2) * 1))) in
  voxel_find (e_voxels s) k = Some (voxel_at s k) /\
  addVoxel accept_all vzero 1 s = Ret false s.
Proof.
  intros s k. assert (Hv : voxel_find (e_voxels s) k = Some (voxel_at s k))
    by (vm_compute; reflexivity).
  split; [exact Hv | exact (addVoxel_occupied_noop accept_all vzero 1 s _ Hv)].
Defined.

(** X4: addVoxel on a free key whose box is neither cached nor buildable returns
    false and changes nothing. *)
Theorem addVoxel_refused_noop (ok : shape_info -> bool) (position : vec3) (scale : Q)
    (s : engine) :
  voxel_find (e_voxels s) (PositionHashKey (vadd position (vsplat ((1 # 2) * scale)))) = None ->
  cache_find (e_shapes s) (setBox (vsplat ((1 # 2) * scale))) = None ->
  ok (setBox (vsplat ((1 # 2) * scale))) = false ->
  addVoxel ok position scale s = Ret false s.
Proof. intros Hv Hc Hok. unfold addVoxel. eng_eval. reflexivity. Qed.

(** Witness of X4: a factory that builds nothing, on a fresh engine. *)
Lemma addVoxel_refused_noop_witness :
  let s := engine_with_proxy (mk_proxy MOTION_TYPE_STATIC 2) in
  voxel_find (e_voxels s) (PositionHashKey (vadd vzero (vsplat ((1 # 2) * 1)))) = None /\
  cache_find (e_shapes s) (setBox (vsplat ((1 # 2) * 1))) = None /\
  reject_all (setBox (vsplat ((1 # 2) * 1))) = false /\
  addVoxel reject_all vzero 1 s = Ret false s.
Proof.
  intros s.
  assert (H1 : voxel_find (e_voxels s) (PositionHashKey (vadd vzero (vsplat ((1 # 2) * 1)))) = None)
    by (vm_compute; reflexivity).
  assert (H2 : cache_find (e_shapes s) (setBox (vsplat ((1 # 2) * 1))) = None)
    by (vm_compute; reflexivity).
  assert (H3 : reject_all (setBox (vsplat ((1 # 2) * 1))) = false) by reflexivity.
  split; [exact H1|]. split; [exact H2|]. split; [exact H3|].
  exact (addVoxel_refused_noop reject_all vzero 1 s H1 H2 H3).
Defined.

(** X5: addVoxel on a free key with a cached or buildable box returns true, adds
    a new collision object with that box at the voxel center (relative to
    the world origin) to the world and the voxel map, and takes one more
    reference on the box; bodies and proxies are untouched. *)
Theorem addVoxel_success_effects (ok : shape_info -> bool) (position : vec3) (scale : Q)
    (s : engine) :
  let half := vsplat ((1 # 2) * scale) in
  let key := PositionHashKey (vadd position half) in
  voxel_find (e_voxels s) key = None ->
  (cache_find (e_shapes s) (setBox half) <> None \/ ok (setBox half) = true) ->
  exists s', addVoxel ok position scale s = Ret true s' /\
    e_world s' = e_world s ++ [e_next s] /\
    e_objects s' !! e_next s
      = Some (CollObject (Some (setBox half))
                (Transform (vadd (vsub position (e_origin s)) half) vzero)) /\
    voxel_find (e_voxels s') key = Some (VoxelObject (vadd position half) (e_next s)) /\
    ref_count (e_shapes s') (setBox half) = S (ref_count (e_shapes s) (setBox half)) /\
    e_next s' = S (e_next s) /\ e_bodies s' = e_bodies s /\ e_proxies s' = e_proxies s.
Proof.
  intros half key Hv Hc.
  remember (addVoxel ok position scale s) as o eqn:Ho. symmetry in Ho.
  unfold addVoxel in Ho. fold half key in Ho.
  destruct (cache_find (e_shapes s) (setBox half)) eqn:Hf;
    [|destruct Hc as [Hc|Hok]; [congruence|]];
    eng_go Ho; subst o; eexists; (split; [reflexivity|]); simpl;
    rewrite lookup_insert_eq, voxel_find_insert_eq; unfold ref_count;
    rewrite cache_find_set_eq, Hf; repeat split.
Qed.

(** Witness of X5: the unit voxel at the origin on a fresh engine. *)
Lemma addVoxel_success_effects_witness :
  let s := engine_with_proxy (mk_proxy MOTION_TYPE_STATIC 2) in
  let half := vsplat ((1 # 2) * 1) in
  let key := PositionHashKey (vadd vzero half) in
  voxel_find (e_voxels s) key = None /\
  (cache_find (e_shapes s) (setBox half) <> None \/ accept_all (setBox half) = true) /\
  exists s', addVoxel accept_all vzero 1 s = Ret true s' /\
    e_world s' = e_world s ++ [e_next s] /\
    e_objects s' !! e_next s
      = Some (CollObject (Some (setBox half))
                (Transform (vadd (vsub vzero (e_origin s)) half) vzero)) /\
    voxel_find (e_voxels s') key = Some (VoxelObject (vadd vzero half) (e_next s)) /\
    ref_count (e_shapes s') (setBox half) = S (ref_count (e_shapes s) (setBox half)) /\
    e_next s' = S (e_next s) /\ e_bodies s' = e_bodies s /\ e_proxies s' = e_proxies s.
Proof.
  intros s half key.
  assert (H1 : voxel_find (e_voxels s) key = None) by (vm_compute; reflexivity).
  assert (H2 : cache_find (e_shapes s) (setBox half) <> None \/ accept_all (setBox half) = true)
    by (right; reflexivity).
  split; [exact H1|]. split; [exact H2|].
  exact (addVoxel_success_effects accept_all vzero 1 s H1 H2).
Defined.

(** X6: removeVoxel on a key that holds no voxel returns false and changes
    nothing. *)
Theorem removeVoxel_absent_noop (dbg : bool) (position : vec3) (scale : Q) (s : engine) :
  voxel_find (e_voxels s) (PositionHashKey (vadd position (vsplat ((1 # 2) * scale)))) = None ->
  removeVoxel dbg position scale s = Ret false s.
Proof. intros Hv. unfold removeVoxel. eng_eval. reflexivity. Qed.

(** Witness of X6: removing a voxel from a fresh engine. *)
Lemma removeVoxel_absent_noop_witness :
  let s := engine_with_proxy (mk_proxy MOTION_TYPE_STATIC 2) in
  voxel_find (e_voxels s) (PositionHashKey (vadd vzero (vsplat ((1 # 2) * 1)))) = None /\
  removeVoxel true vzero 1 s = Ret false s.
Proof.
  intros s.
  assert (H1 : voxel_find (e_voxels s) (PositionHashKey (vadd vzero (vsplat ((1 # 2) * 1)))) = None)
    by (vm_compute; reflexivity).
  split; [exact H1 | exact (removeVoxel_absent_noop true vzero 1 s H1)].
Defined.

(** X7: removeVoxel on a present key whose box is cached returns true, takes the
    voxel's object out of the world, the object table and the voxel map, and
    releases one reference on the box. *)
Theorem removeVoxel_effects (dbg : bool) (position : vec3) (scale : Q) (s : engine)
    (v : voxel_object) :
  let half := vsplat ((1 # 2) * scale) in
  let key := PositionHashKey (vadd position half) in
  voxel_find (e_voxels s) key = Some v ->
  cache_find (e_shapes s) (setBox half) <> None -> NoDup (map fst (e_shapes s)) ->
  exists s', removeVoxel dbg position scale s = Ret true s' /\
    e_world s' = remove_first (vo_object v) (e_world s) /\
    e_objects s' = delete (vo_object v) (e_objects s) /\
    voxel_find (e_voxels s') key = None /\
    ref_count (e_shapes s') (setBox half) = (ref_count (e_shapes s) (setBox half) - 1)%nat /\
    e_bodies s' = e_bodies s /\ e_proxies s' = e_proxies s.
Proof.
  intros half key Hv Hc Hnd.
  remember (removeVoxel dbg position scale s) as o eqn:Ho. symmetry in Ho.
  unfold removeVoxel in Ho. fold half key in Ho. eng_go Ho.
  unfold ref_count.
  destruct (cache_find (e_shapes s) (setBox half)) as [n|] eqn:Hf; [|congruence].
  eng_go Ho.
  destruct (n <=? 1) eqn:Hn; eng_go Ho; rewrite ?andb_false_r in Ho; simpl in Ho; subst o; eexists; (split; [reflexivity|]); simpl;
    rewrite voxel_find_remove_eq; (split; [reflexivity|]); (split; [reflexivity|]);
    (split; [reflexivity|]).
  - rewrite cache_find_remove_eq by exact Hnd. apply Nat.leb_le in Hn. split; [lia|auto].
  - rewrite cache_find_set_eq. auto.
Qed.

(** Witness of X7: removing the unit voxel at the origin. *)
Lemma removeVoxel_effects_witness :
  let s := one_voxel_engine in
  let half := vsplat ((1 # 2) * 1) in
  let key := PositionHashKey (vadd vzero half) in
  let v := voxel_at s key in
  voxel_find (e_voxels s) key = Some v /\
  cache_find (e_shapes s) (setBox half) <> None /\ NoDup (map fst (e_shapes s)) /\
  exists s', removeVoxel true vzero 1 s = Ret true s' /\
    e_world s' = remove_first (vo_object v) (e_world s) /\
    e_objects s' = delete (vo_object v) (e_objects s) /\
    voxel_find (e_voxels s') key = None /\
    ref_count (e_shapes s') (setBox half) = (ref_count (e_shapes s) (setBox half) - 1)%nat /\
    e_bodies s' = e_bodies s /\ e_proxies s' = e_proxies s.
Proof.
  intros s half key v.
  assert (H1 : voxel_find (e_voxels s) key = Some v) by (vm_compute; reflexivity).
  assert (H2 : cache_find (e_shapes s) (setBox half) <> None) by (vm_compute; discriminate).
  assert (H3 : NoDup (map fst (e_shapes s)))
    by (vm_compute; apply NoDup_singleton).
  split; [exact H1|]. split; [exact H2|]. split; [exact H3|].
  exact (removeVoxel_effects true vzero 1 s v H1 H2 H3).
Defined.

(** X8: removeVoxel releases the box computed from the given scale, not the
    voxel's own: when that box is not cached, with assertions on it crashes
    after the object has left the world, and with them off it returns true
    and leaves the shape cache unchanged. *)
Theorem removeVoxel_unreleased_box (position : vec3) (scale : Q) (s : engine)
    (v : voxel_object) :
  let half := vsplat ((1 # 2) * scale) in
  let key := PositionHashKey (vadd position half) in
  voxel_find (e_voxels s) key = Some v ->
  cache_find (e_shapes s) (setBox half) = None ->
  removeVoxel true position scale s
    = Crash (set_world (remove_first (vo_object v) (e_world s)) s) /\
  exists s', removeVoxel false position scale s = Ret true s' /\
    e_shapes s' = e_shapes s /\
    e_world s' = remove_first (vo_object v) (e_world s) /\
    voxel_find (e_voxels s') key = None.
Proof.
  intros half key Hv Hc. split.
  - unfold removeVoxel. fold half key. eng_eval. reflexivity.
  - remember (removeVoxel false position scale s) as o eqn:Ho. symmetry in Ho.
    unfold removeVoxel in Ho. fold half key in Ho. eng_go Ho. subst o.
    eexists. split; [reflexivity|]. simpl. rewrite voxel_find_remove_eq. auto.
Qed.

(** Witness of X8: a unit voxel removed at the center of a voxel of scale 2. *)
Lemma removeVoxel_unreleased_box_witness :
  let s := big_voxel_engine in
  let pos := Vec3 (1 # 2) (1 # 2) (1 # 2) in
  let half := vsplat ((1 # 2) * 1) in
  let key := PositionHashKey (vadd pos half) in
  let v := voxel_at s key in
  voxel_find (e_voxels s) key = Some v /\
  cache_find (e_shapes s) (setBox half) = None /\
  removeVoxel true pos 1 s = Crash (set_world (remove_first (vo_object v) (e_world s)) s) /\
  exists s', removeVoxel false pos 1 s = Ret true s' /\
    e_shapes s' = e_shapes s /\
    e_world s' = remove_first (vo_object v) (e_world s) /\
    voxel_find (e_voxels s') key = None.
Proof.
  intros s pos half key v.
  assert (H1 : voxel_find (e_voxels s) key = Some v) by (vm_compute; reflexivity).
  assert (H2 : cache_find (e_shapes s) (setBox half) = None) by (vm_compute; reflexivity).
  split; [exact H1|]. split; [exact H2|].
  exact (removeVoxel_unreleased_box pos 1 s v H1 H2).
Defined.

(** X9: addVoxel followed by removeVoxel at the same position and scale returns
    the engine to its former state, except the object counter. *)
Theorem addVoxel_removeVoxel_round_trip (ok : shape_info -> bool) (dbg : bool)
    (position : vec3) (scale : Q) (s : engine) :
  voxel_find (e_voxels s) (PositionHashKey (vadd position (vsplat ((1 # 2) * scale)))) = None ->
  (cache_find (e_shapes s) (setBox (vsplat ((1 # 2) * scale))) <> None \/
   ok (setBox (vsplat ((1 # 2) * scale))) = true) ->
  cache_wf (e_shapes s) -> ~ In (e_next s) (e_world s) -> e_objects s !! e_next s = None ->
  exists s1, addVoxel ok position scale s = Ret true s1 /\
    removeVoxel dbg position scale s1 = Ret true (set_next (S (e_next s)) s).
Proof.
  intros Hv Hc Hwf Hw Ho.
  set (info := setBox _) in *. set (key := PositionHashKey _) in *.
  remember (addVoxel ok position scale s) as o eqn:H1. symmetry in H1.
  unfold addVoxel in H1. fold info key in H1.
  destruct (cache_find (e_shapes s) info) as [n|] eqn:Hf.
  - destruct n as [|n]; [exfalso; exact (cache_wf_find _ _ _ Hwf Hf eq_refl)|].
    eng_go H1. subst o. eexists. split; [reflexivity|].
    remember (removeVoxel dbg position scale _) as o eqn:H2. symmetry in H2.
    unfold removeVoxel in H2. fold info key in H2. eng_go H2.
    simpl in H2. rewrite andb_false_r in H2. simpl in H2. subst o.
    rewrite ?Nat.sub_0_r, ?cache_set_set; rewrite cache_set_find_same by exact Hf.
    rewrite remove_first_app_new, delete_insert_id, voxel_remove_insert_new by assumption.
    reflexivity.
  - destruct Hc as [Hc|Hok]; [congruence|].
    eng_go H1. subst o. eexists. split; [reflexivity|].
    remember (removeVoxel dbg position scale _) as o eqn:H2. symmetry in H2.
    unfold removeVoxel in H2. fold info key in H2. eng_go H2.
    simpl in H2. rewrite andb_false_r in H2. simpl in H2. subst o.
    rewrite cache_remove_set_new by exact Hf.
    rewrite remove_first_app_new, delete_insert_id, voxel_remove_insert_new by assumption.
    reflexivity.
Qed.

(** Witness of X9: the unit voxel at the origin on a fresh engine. *)
Lemma addVoxel_removeVoxel_round_trip_witness :
  let s := engine_with_proxy (mk_proxy MOTION_TYPE_STATIC 2) in
  voxel_find (e_voxels s) (PositionHashKey (vadd vzero (vsplat ((1 # 2) * 1)))) = None /\
  cache_wf (e_shapes s) /\ ~ In (e_next s) (e_world s) /\ e_objects s !! e_next s = None /\
  exists s1, addVoxel accept_all vzero 1 s = Ret true s1 /\
    removeVoxel true vzero 1 s1 = Ret true (set_next (S (e_next s)) s).
Proof.
  intros s.
  assert (H1 : voxel_find (e_voxels s) (PositionHashKey (vadd vzero (vsplat ((1 # 2) * 1)))) = None)
    by (vm_compute; reflexivity).
  assert (H2 : cache_find (e_shapes s) (setBox (vsplat ((1 # 2) * 1))) <> None \/
               accept_all (setBox (vsplat ((1 # 2) * 1))) = true) by (right; reflexivity).
  assert (H3 : cache_wf (e_shapes s)) by constructor.
  assert (H4 : ~ In (e_next s) (e_world s)) by (simpl; tauto).
  assert (H5 : e_objects s !! e_next s = None) by reflexivity.
  split; [exact H1|]. split; [exact H3|]. split; [exact H4|]. split; [exact H5|].
  exact (addVoxel_removeVoxel_round_trip accept_all true vzero 1 s H1 H2 H3 H4 H5).
Defined.

(** X10: addEntity whose shape is neither cached nor buildable returns false and
    changes nothing. *)
Theorem addEntity_refused_noop (ok : shape_info -> bool) (p : nat) (s : engine)
    (ms : motion_state) :
  e_proxies s !! p = Some ms ->
  cache_find (e_shapes s) (ms_shape_info ms) = None -> ok (ms_shape_info ms) = false ->
  addEntity ok p s = Ret false s.
Proof. intros Hp Hc Hok. unfold addEntity. eng_eval. reflexivity. Qed.

(** Witness of X10: a factory that builds nothing, on a fresh engine. *)
Lemma addEntity_refused_noop_witness :
  let s := engine_with_proxy (mk_proxy MOTION_TYPE_DYNAMIC 2) in
  let ms := proxy_at s 0 in
  e_proxies s !! 0 = Some ms /\ cache_find (e_shapes s) (ms_shape_info ms) = None /\
  reject_all (ms_shape_info ms) = false /\ addEntity reject_all 0 s = Ret false s.
Proof.
  intros s ms.
  assert (H1 : e_proxies s !! 0 = Some ms) by (vm_compute; reflexivity).
  assert (H2 : cache_find (e_shapes s) (ms_shape_info ms) = None) by (vm_compute; reflexivity).
  assert (H3 : reject_all (ms_shape_info ms) = false) by reflexivity.
  split; [exact H1|]. split; [exact H2|]. split; [exact H3|].
  exact (addEntity_refused_noop reject_all 0 s ms H1 H2 H3).
Defined.

(** X11: addEntity with a cached or buildable shape returns true, creates a body
    for the proxy with its shape, transform, restitution and friction, links
    proxy and body, appends the body to the world and takes one more
    reference on the shape. *)
Theorem addEntity_success_effects (ok : shape_info -> bool) (p : nat) (s : engine)
    (ms : motion_state) :
  e_proxies s !! p = Some ms ->
  (cache_find (e_shapes s) (ms_shape_info ms) <> None \/ ok (ms_shape_info ms) = true) ->
  exists s' b, addEntity ok p s = Ret true s' /\
    proxy_body s' p = Some (e_next s) /\ e_bodies s' !! e_next s = Some b /\
    e_world s' = e_world s ++ [e_next s] /\
    rb_motion b = p /\ rb_shape b = Some (ms_shape_info ms) /\
    rb_transform b = ms_transform ms /\
    rb_restitution b = ms_restitution ms /\ rb_friction b = ms_friction ms /\
    ref_count (e_shapes s') (ms_shape_info ms) = S (ref_count (e_shapes s) (ms_shape_info ms)).
Proof.
  intros Hp Hc. destruct (addEntity_run ok p s ms Hp Hc) as (b & Hb & Hrun).
  destruct Hb as (Hm & Hsh & _ & Htr & Hre & Hfr & _).
  do 2 eexists. split; [exact Hrun|]. unfold proxy_body. simpl.
  rewrite !lookup_insert_eq. simpl. unfold ref_count at 1. rewrite cache_find_set_eq.
  repeat split; assumption.
Qed.

(** Witness of X11: a dynamic box on a fresh engine. *)
Lemma addEntity_success_effects_witness :
  let s := engine_with_proxy (mk_proxy MOTION_TYPE_DYNAMIC 2) in
  let ms := proxy_at s 0 in
  e_proxies s !! 0 = Some ms /\
  exists s' b, addEntity accept_all 0 s = Ret true s' /\
    proxy_body s' 0 = Some (e_next s) /\ e_bodies s' !! e_next s = Some b /\
    e_world s' = e_world s ++ [e_next s] /\
    rb_motion b = 0%nat /\ rb_shape b = Some (ms_shape_info ms) /\
    rb_transform b = ms_transform ms /\
    rb_restitution b = ms_restitution ms /\ rb_friction b = ms_friction ms /\
    ref_count (e_shapes s') (ms_shape_info ms) = S (ref_count (e_shapes s) (ms_shape_info ms)).
Proof.
  intros s ms.
  assert (H1 : e_proxies s !! 0 = Some ms) by (vm_compute; reflexivity).
  assert (H2 : cache_find (e_shapes s) (ms_shape_info ms) <> None \/
               accept_all (ms_shape_info ms) = true) by (right; reflexivity).
  split; [exact H1|].
  exact (addEntity_success_effects accept_all 0 s ms H1 H2).
Defined.

(** X12: The body addEntity creates is kinematic with deactivation disabled, or
    static and asleep, with zero mass and no velocity, for a kinematic or
    static proxy; for a dynamic proxy it has the proxy's mass and
    velocities, and is static and asleep when that mass is zero, else
    dynamic and active. *)
Theorem addEntity_body_by_motion_type (ok : shape_info -> bool) (p : nat) (s s' : engine)
    (ms : motion_state) :
  e_proxies s !! p = Some ms -> addEntity ok p s = Ret true s' ->
  exists b, e_bodies s' !! e_next s = Some b /\
    match ms_motion_type ms with
    | MOTION_TYPE_KINEMATIC =>
        rb_cflags b = CF_KINEMATIC_OBJECT /\ rb_act b = DISABLE_DEACTIVATION /\
        rb_mass b = 0%Q /\ rb_linvel b = vzero /\ rb_angvel b = vzero
    | MOTION_TYPE_STATIC =>
        rb_cflags b = CF_STATIC_OBJECT /\ rb_act b = ISLAND_SLEEPING /\
        rb_mass b = 0%Q /\ rb_linvel b = vzero /\ rb_angvel b = vzero
    | MOTION_TYPE_DYNAMIC =>
        rb_mass b = ms_mass ms /\ rb_linvel b = ms_linvel ms /\ rb_angvel b = ms_angvel ms /\
        (if Qeq_bool (ms_mass ms) 0
         then rb_cflags b = CF_STATIC_OBJECT /\ rb_act b = ISLAND_SLEEPING
         else rb_cflags b = 0%Z /\ rb_act b = ACTIVE_TAG)
    end.
Proof.
  intros Hp H.
  destruct (cache_find (e_shapes s) (ms_shape_info ms)) eqn:Hf;
    [|destruct (ok (ms_shape_info ms)) eqn:Hok].
  3:{ unfold addEntity in H. eng_go H. discriminate H. }
  all: assert (Hc : cache_find (e_shapes s) (ms_shape_info ms) <> None \/
                    ok (ms_shape_info ms) = true) by (rewrite Hf; auto; left; discriminate).
  all: destruct (addEntity_run ok p s ms Hp Hc) as (b & Hb & Hrun); rewrite Hrun in H;
    injection H as <-; exists b; simpl; rewrite lookup_insert_eq; split; [reflexivity|];
    destruct Hb as (_ & _ & _ & _ & _ & _ & Hty);
    destruct (ms_motion_type ms); [tauto| |tauto];
    destruct Hty as (? & ? & ? & _ & ?); tauto.
Qed.

(** Witness of X12: the dynamic box of mass 2 on a fresh engine. *)
Lemma addEntity_body_by_motion_type_witness :
  let s := engine_with_proxy (mk_proxy MOTION_TYPE_DYNAMIC 2) in
  let ms := proxy_at s 0 in
  e_proxies s !! 0 = Some ms /\ addEntity accept_all 0 s = Ret true dynamic_box_engine /\
  exists b, e_bodies dynamic_box_engine !! e_next s = Some b /\
    match ms_motion_type ms with
    | MOTION_TYPE_KINEMATIC =>
        rb_cflags b = CF_KINEMATIC_OBJECT /\ rb_act b = DISABLE_DEACTIVATION /\
        rb_mass b = 0%Q /\ rb_linvel b = vzero /\ rb_angvel b = vzero
    | MOTION_TYPE_STATIC =>
        rb_cflags b = CF_STATIC_OBJECT /\ rb_act b = ISLAND_SLEEPING /\
        rb_mass b = 0%Q /\ rb_linvel b = vzero /\ rb_angvel b = vzero
    | MOTION_TYPE_DYNAMIC =>
        rb_mass b = ms_mass ms /\ rb_linvel b = ms_linvel ms /\ rb_angvel b = ms_angvel ms /\
        (if Qeq_bool (ms_mass ms) 0
         then rb_cflags b = CF_STATIC_OBJECT /\ rb_act b = ISLAND_SLEEPING
         else rb_cflags b = 0%Z /\ rb_act b = ACTIVE_TAG)
    end.
Proof.
  intros s ms.
  assert (H1 : e_proxies s !! 0 = Some ms) by (vm_compute; reflexivity).
  assert (H2 : addEntity accept_all 0 s = Ret true dynamic_box_engine)
    by (vm_compute; reflexivity).
  split; [exact H1|]. split; [exact H2|].
  exact (addEntity_body_by_motion_type accept_all 0 s dynamic_box_engine ms H1 H2).
Defined.

(** X13: removeEntity on a proxy without a body returns false and changes
    nothing. *)
Theorem removeEntity_no_body_noop (p : nat) (s : engine) (ms : motion_state) :
  e_proxies s !! p = Some ms -> ms_body ms = None ->
  removeEntity p s = Ret false s.
Proof. intros Hp Hb. unfold removeEntity. eng_eval. reflexivity. Qed.

(** Witness of X13: proxy 0 not yet added. *)
Lemma removeEntity_no_body_noop_witness :
  let s := engine_with_proxy (mk_proxy MOTION_TYPE_DYNAMIC 2) in
  let ms := proxy_at s 0 in
  e_proxies s !! 0 = Some ms /\ ms_body ms = None /\ removeEntity 0 s = Ret false s.
Proof.
  intros s ms.
  assert (H1 : e_proxies s !! 0 = Some ms) by (vm_compute; reflexivity).
  assert (H2 : ms_body ms = None) by reflexivity.
  split; [exact H1|]. split; [exact H2|].
  exact (removeEntity_no_body_noop 0 s ms H1 H2).
Defined.

(** X14: removeEntity on a proxy with a body returns true, deletes the body,
    takes it out of the world, unlinks the proxy and releases one reference
    on the body's shape, leaving every other shape's count. *)
Theorem removeEntity_effects (p id : nat) (s : engine) (ms : motion_state) (b : rigid_body) :
  e_proxies s !! p = Some ms -> ms_body ms = Some id -> e_bodies s !! id = Some b ->
  NoDup (map fst (e_shapes s)) ->
  exists s', removeEntity p s = Ret true s' /\
    e_bodies s' = delete id (e_bodies s) /\ e_world s' = remove_first id (e_world s) /\
    proxy_body s' p = None /\
    ref_count (e_shapes s') (collectInfo (rb_shape b))
      = (ref_count (e_shapes s) (collectInfo (rb_shape b)) - 1)%nat /\
    (forall k, k <> collectInfo (rb_shape b) -> ref_count (e_shapes s') k = ref_count (e_shapes s) k).
Proof.
  intros Hp Hid Hb Hnd.
  remember (removeEntity p s) as o eqn:H. symmetry in H.
  unfold removeEntity, proxy_body in *. eng_go H.
  set (info := collectInfo (rb_shape b)) in *.
  unfold ref_count.
  destruct (cache_find (e_shapes s) info) as [n|] eqn:Hf; eng_go H;
    [destruct (n <=? 1) eqn:Hn; eng_go H|]; subst o;
    eexists; (split; [reflexivity|]); simpl; rewrite ?lookup_insert_eq; simpl;
    (split; [reflexivity|]); (split; [reflexivity|]); (split; [reflexivity|]).
  - rewrite cache_find_remove_eq by exact Hnd. apply Nat.leb_le in Hn.
    split; [lia|]. intros k Hk. rewrite cache_find_remove_neq by exact Hk. reflexivity.
  - rewrite cache_find_set_eq. split; [reflexivity|].
    intros k Hk. rewrite cache_find_set_neq by exact Hk. reflexivity.
  - rewrite Hf. split; [reflexivity|]. intros k Hk. reflexivity.
Qed.

(** Witness of X14: removing the static box. *)
Lemma removeEntity_effects_witness :
  let s := static_box_engine in
  let ms := proxy_at s 0 in
  let b := body_at s 0 in
  e_proxies s !! 0 = Some ms /\ ms_body ms = Some 0%nat /\ e_bodies s !! 0 = Some b /\
  NoDup (map fst (e_shapes s)) /\
  exists s', removeEntity 0 s = Ret true s' /\
    e_bodies s' = delete 0 (e_bodies s) /\ e_world s' = remove_first 0 (e_world s) /\
    proxy_body s' 0 = None /\
    ref_count (e_shapes s') (collectInfo (rb_shape b))
      = (ref_count (e_shapes s) (collectInfo (rb_shape b)) - 1)%nat /\
    (forall k, k <> collectInfo (rb_shape b) -> ref_count (e_shapes s') k = ref_count (e_shapes s) k).
Proof.
  intros s ms b.
  assert (H1 : e_proxies s !! 0 = Some ms) by (vm_compute; reflexivity).
  assert (H2 : ms_body ms = Some 0%nat) by (vm_compute; reflexivity).
  assert (H3 : e_bodies s !! 0 = Some b) by (vm_compute; reflexivity).
  assert (H4 : NoDup (map fst (e_shapes s)))
    by (vm_compute; apply NoDup_singleton).
  split; [exact H1|]. split; [exact H2|]. split; [exact H3|]. split; [exact H4|].
  exact (removeEntity_effects 0 0 s ms b H1 H2 H3 H4).
Defined.

(** X15: addEntity followed by removeEntity on the same unlinked proxy returns
    the engine to its former state, except the object counter. *)
Theorem addEntity_removeEntity_round_trip (ok : shape_info -> bool) (p : nat) (s : engine)
    (ms : motion_state) :
  e_proxies s !! p = Some ms -> ms_body ms = None ->
  (cache_find (e_shapes s) (ms_shape_info ms) <> None \/ ok (ms_shape_info ms) = true) ->
  cache_wf (e_shapes s) -> ~ In (e_next s) (e_world s) -> e_bodies s !! e_next s = None ->
  exists s1, addEntity ok p s = Ret true s1 /\
    removeEntity p s1 = Ret true (set_next (S (e_next s)) s).
Proof.
  intros Hp Hnb Hc Hwf Hw Hb.
  destruct ms as [mb mt mm msi mtr ml ma mg mr mf]; simpl in Hnb; subst mb.
  destruct (addEntity_run ok p s _ Hp Hc) as (b & Hbody & Hrun).
  destruct Hbody as (_ & Hsh & _).
  eexists. split; [exact Hrun|].
  remember (removeEntity p _) as o eqn:H. symmetry in H.
  unfold removeEntity in H. eng_go H.
  unfold ref_count in H.
  destruct (cache_find (e_shapes s) msi) as [n|] eqn:Hf.
  - destruct n as [|n]; [exfalso; exact (cache_wf_find _ _ _ Hwf Hf eq_refl)|].
    eng_go H. simpl in H. rewrite ?Nat.sub_0_r, ?cache_set_set in H.
    rewrite cache_set_find_same in H by exact Hf. subst o.
    unfold set_next. simpl.
    rewrite remove_first_app_new by exact Hw. rewrite delete_insert_id by exact Hb.
    unfold set_proxies, set_bodies, set_shapes, set_world. simpl.
    rewrite insert_id by exact Hp. reflexivity.
  - eng_go H. simpl in H. rewrite cache_remove_set_new in H by exact Hf. subst o.
    unfold set_next. simpl.
    rewrite remove_first_app_new by exact Hw. rewrite delete_insert_id by exact Hb.
    unfold set_proxies, set_bodies, set_shapes, set_world. simpl.
    rewrite insert_id by exact Hp. reflexivity.
Qed.

(** Witness of X15: a dynamic box on a fresh engine. *)
Lemma addEntity_removeEntity_round_trip_witness :
  let s := engine_with_proxy (mk_proxy MOTION_TYPE_DYNAMIC 2) in
  let ms := proxy_at s 0 in
  e_proxies s !! 0 = Some ms /\ ms_body ms = None /\
  cache_wf (e_shapes s) /\ ~ In (e_next s) (e_world s) /\ e_bodies s !! e_next s = None /\
  exists s1, addEntity accept_all 0 s = Ret true s1 /\
    removeEntity 0 s1 = Ret true (set_next (S (e_next s)) s).
Proof.
  intros s ms.
  assert (H1 : e_proxies s !! 0 = Some ms) by (vm_compute; reflexivity).
  assert (H2 : ms_body ms = None) by reflexivity.
  assert (H3 : cache_find (e_shapes s) (ms_shape_info ms) <> None \/
               accept_all (ms_shape_info ms) = true) by (right; reflexivity).
  assert (H4 : cache_wf (e_shapes s)) by constructor.
  assert (H5 : ~ In (e_next s) (e_world s)) by (simpl; tauto).
  assert (H6 : e_bodies s !! e_next s = None) by reflexivity.
  split; [exact H1|]. split; [exact H2|]. split; [exact H4|]. split; [exact H5|].
  split; [exact H6|].
  exact (addEntity_removeEntity_round_trip accept_all 0 s ms H1 H2 H3 H4 H5 H6).
Defined.

(** X16: updateEntity on a proxy without a body returns false and changes
    nothing. *)
Theorem updateEntity_no_body_noop (ok : shape_info -> bool) (dbg : bool) (p : nat) (flags : Z)
    (s : engine) (ms : motion_state) :
  e_proxies s !! p = Some ms -> ms_body ms = None ->
  updateEntity ok dbg p flags s = Ret false s.
Proof. intros Hp Hb. unfold updateEntity. eng_eval. reflexivity. Qed.

(** Witness of X16: a classification update on a proxy not yet added. *)
Lemma updateEntity_no_body_noop_witness :
  let s := engine_with_proxy (mk_proxy MOTION_TYPE_DYNAMIC 2) in
  let ms := proxy_at s 0 in
  e_proxies s !! 0 = Some ms /\ ms_body ms = None /\
  updateEntity accept_all true 0 PHYSICS_UPDATE_MOTION_TYPE s = Ret false s.
Proof.
  intros s ms.
  assert (H1 : e_proxies s !! 0 = Some ms) by (vm_compute; reflexivity).
  assert (H2 : ms_body ms = None) by reflexivity.
  split; [exact H1|]. split; [exact H2|].
  exact (updateEntity_no_body_noop accept_all true 0 PHYSICS_UPDATE_MOTION_TYPE s ms H1 H2).
Defined.

(** X17: updateEntity with neither a hard nor an easy flag returns true and
    changes nothing. *)
Theorem updateEntity_no_flags_noop (ok : shape_info -> bool) (dbg : bool) (p id : nat)
    (flags : Z) (s : engine) (ms : motion_state) :
  e_proxies s !! p = Some ms -> ms_body ms = Some id ->
  flag_set flags PHYSICS_UPDATE_HARD = false -> flag_set flags PHYSICS_UPDATE_EASY = false ->
  updateEntity ok dbg p flags s = Ret true s.
Proof.
  intros Hp Hb Hh He. unfold updateEntity. rewrite Hh, He. eng_eval. reflexivity.
Qed.

(** Witness of X17: an update with no flag on the static box. *)
Lemma updateEntity_no_flags_noop_witness :
  let s := static_box_engine in
  let ms := proxy_at s 0 in
  e_proxies s !! 0 = Some ms /\ ms_body ms = Some 0%nat /\
  flag_set 0 PHYSICS_UPDATE_HARD = false /\ flag_set 0 PHYSICS_UPDATE_EASY = false /\
  updateEntity accept_all true 0 0 s = Ret true s.
Proof.
  intros s ms.
  assert (H1 : e_proxies s !! 0 = Some ms) by (vm_compute; reflexivity).
  assert (H2 : ms_body ms = Some 0%nat) by (vm_compute; reflexivity).
  assert (H3 : flag_set 0 PHYSICS_UPDATE_HARD = false) by reflexivity.
  assert (H4 : flag_set 0 PHYSICS_UPDATE_EASY = false) by reflexivity.
  split; [exact H1|]. split; [exact H2|]. split; [exact H3|]. split; [exact H4|].
  exact (updateEntity_no_flags_noop accept_all true 0 0 0 s ms H1 H2 H3 H4).
Defined.

(** X18: updateEntity with easy flags only changes nothing but the body, which
    keeps its collision flags and its shape. *)
Theorem updateEntity_easy_only (ok : shape_info -> bool) (dbg : bool) (s : engine)
    (p id : nat) (ms : motion_state) (b : rigid_body) (flags : Z) :
  e_proxies s !! p = Some ms -> ms_body ms = Some id -> e_bodies s !! id = Some b ->
  flag_set flags PHYSICS_UPDATE_HARD = false ->
  exists b1, updateEntity ok dbg p flags s = Ret true (set_bodies (<[id:=b1]> (e_bodies s)) s) /\
    rb_cflags b1 = rb_cflags b /\ rb_shape b1 = rb_shape b.
Proof.
  intros Hp Hid Hb Hh.
  unfold updateEntity. erewrite bind_Ret by (unfold get_proxy; rewrite Hp; reflexivity).
  cbv beta. rewrite Hid, Hh.
  destruct (flag_set flags PHYSICS_UPDATE_EASY).
  - destruct (updateEntityEasy_keeps_kind s p id flags ms b) as (b1 & He & Hc1 & Hsh1 & _);
      auto using flag_mass_hard.
    exists b1. erewrite bind_Ret by exact He. split; [reflexivity|]. auto.
  - exists b. split; [|auto]. unfold mbind, M_bind, mret, M_ret. rewrite insert_id by exact Hb.
    destruct s; reflexivity.
Qed.

(** Witness of X18: a position update on the dynamic box. *)
Lemma updateEntity_easy_only_witness :
  let s := dynamic_box_engine in
  let ms := proxy_at s 0 in
  let b := body_at s 0 in
  e_proxies s !! 0 = Some ms /\ ms_body ms = Some 0%nat /\ e_bodies s !! 0 = Some b /\
  flag_set PHYSICS_UPDATE_POSITION PHYSICS_UPDATE_HARD = false /\
  exists b1, updateEntity accept_all true 0 PHYSICS_UPDATE_POSITION s
               = Ret true (set_bodies (<[0%nat:=b1]> (e_bodies s)) s) /\
    rb_cflags b1 = rb_cflags b /\ rb_shape b1 = rb_shape b.
Proof.
  intros s ms b.
  assert (H1 : e_proxies s !! 0 = Some ms) by (vm_compute; reflexivity).
  assert (H2 : ms_body ms = Some 0%nat) by (vm_compute; reflexivity).
  assert (H3 : e_bodies s !! 0 = Some b) by (vm_compute; reflexivity).
  assert (H4 : flag_set PHYSICS_UPDATE_POSITION PHYSICS_UPDATE_HARD = false) by reflexivity.
  split; [exact H1|]. split; [exact H2|]. split; [exact H3|]. split; [exact H4|].
  exact (updateEntity_easy_only accept_all true s 0 0 ms b PHYSICS_UPDATE_POSITION H1 H2 H3 H4).
Defined.

(** X19: updateEntity without the Shape flag never changes the shape cache. *)
Theorem updateEntity_without_shape_keeps_cache (ok : shape_info -> bool) (dbg : bool)
    (p : nat) (flags : Z) (s : engine) :
  flag_set flags PHYSICS_UPDATE_SHAPE = false ->
  e_shapes (outcome_state (updateEntity ok dbg p flags s)) = e_shapes s.
Proof.
  intros Hs. revert s. change (keeps_shapes (updateEntity ok dbg p flags)).
  unfold updateEntity, updateEntityHard. rewrite Hs. keeps_solve.
Qed.

(** Witness of X19: a classification update on the dynamic box. *)
Lemma updateEntity_without_shape_keeps_cache_witness :
  flag_set PHYSICS_UPDATE_MOTION_TYPE PHYSICS_UPDATE_SHAPE = false /\
  e_shapes (outcome_state (updateEntity accept_all true 0 PHYSICS_UPDATE_MOTION_TYPE
                             dynamic_box_engine)) = e_shapes dynamic_box_engine.
Proof.
  assert (H : flag_set PHYSICS_UPDATE_MOTION_TYPE PHYSICS_UPDATE_SHAPE = false) by reflexivity.
  split; [exact H|].
  exact (updateEntity_without_shape_keeps_cache accept_all true 0 PHYSICS_UPDATE_MOTION_TYPE
           dynamic_box_engine H).
Defined.

(** X20: A hard update without the Shape flag on a proxy that now reports
    Kinematic re-inserts the body at the end of the world with zero mass
    and deactivation disabled, flagged both kinematic and static. *)
Theorem updateEntity_hard_to_kinematic (ok : shape_info -> bool) (dbg : bool) (s : engine)
    (p id : nat) (ms : motion_state) (b : rigid_body) (sh : shape_info) (flags : Z) :
  e_proxies s !! p = Some ms -> ms_body ms = Some id -> e_bodies s !! id = Some b ->
  rb_shape b = Some sh -> ms_motion_type ms = MOTION_TYPE_KINEMATIC ->
  flag_set flags PHYSICS_UPDATE_HARD = true -> flag_set flags PHYSICS_UPDATE_SHAPE = false ->
  exists s' b', updateEntity ok dbg p flags s = Ret true s' /\ e_bodies s' !! id = Some b' /\
    e_world s' = remove_first id (e_world s) ++ [id] /\
    isKinematicObject b' = true /\ isStaticObject b' = true /\
    rb_act b' = DISABLE_DEACTIVATION /\ rb_mass b' = 0%Q /\ rb_shape b' = Some sh.
Proof.
  intros Hp Hid Hb Hsh Ht Hh Hs.
  destruct (updateEntity_hard_prefix ok dbg s p id ms b sh flags) as (b1 & Hsh1 & Hrun); auto.
  rewrite Hrun, Ht.
  set (s1 := set_bodies _ _).
  destruct (applyMotionType_kinematic s1 p id flags b1) as (b2 & Ha & Hc2 & Hact2 & Hm2 & Hsh2).
  { unfold s1. simpl. apply lookup_insert_eq. }
  destruct (kinematic_cflags_bits (rb_cflags b1)) as (Hst & Hk & Hsk).
  rewrite <- Hc2 in Hst, Hk, Hsk.
  erewrite bind_Ret by exact Ha. cbv beta. rewrite bind_assoc_run.
  erewrite bind_Ret.
  2:{ apply (addRigidBody_pinned_static _ id b2 sh); auto.
      - simpl. apply lookup_insert_eq.
      - congruence. }
  cbv beta. unfold modify_body. rewrite bind_assoc_run.
  erewrite bind_Ret by (unfold get_body; simpl; rewrite lookup_insert_eq; reflexivity).
  cbv beta. unfold activate, isStaticOrKinematicObject. rewrite Hsk. simpl.
  do 2 eexists. split; [reflexivity|]. simpl. rewrite lookup_insert_eq.
  split; [reflexivity|]. split; [reflexivity|]. repeat split; auto. congruence.
Qed.

(** Witness of X20: the dynamic box now reports Kinematic. *)
Lemma updateEntity_hard_to_kinematic_witness :
  let s := proxy0_reports MOTION_TYPE_KINEMATIC 2 dynamic_box_engine in
  let ms := proxy_at s 0 in
  let b := body_at s 0 in
  let f := PHYSICS_UPDATE_MOTION_TYPE in
  e_proxies s !! 0 = Some ms /\ ms_body ms = Some 0%nat /\ e_bodies s !! 0 = Some b /\
  rb_shape b = Some unit_box /\ ms_motion_type ms = MOTION_TYPE_KINEMATIC /\
  flag_set f PHYSICS_UPDATE_HARD = true /\ flag_set f PHYSICS_UPDATE_SHAPE = false /\
  exists s' b', updateEntity accept_all true 0 f s = Ret true s' /\ e_bodies s' !! 0 = Some b' /\
    e_world s' = remove_first 0 (e_world s) ++ [0%nat] /\
    isKinematicObject b' = true /\ isStaticObject b' = true /\
    rb_act b' = DISABLE_DEACTIVATION /\ rb_mass b' = 0%Q /\ rb_shape b' = Some unit_box.
Proof.
  intros s ms b f.
  assert (H1 : e_proxies s !! 0 = Some ms) by (vm_compute; reflexivity).
  assert (H2 : ms_body ms = Some 0%nat) by (vm_compute; reflexivity).
  assert (H3 : e_bodies s !! 0 = Some b) by (vm_compute; reflexivity).
  assert (H4 : rb_shape b = Some unit_box) by (vm_compute; reflexivity).
  assert (H5 : ms_motion_type ms = MOTION_TYPE_KINEMATIC) by (vm_compute; reflexivity).
  assert (H6 : flag_set f PHYSICS_UPDATE_HARD = true) by reflexivity.
  assert (H7 : flag_set f PHYSICS_UPDATE_SHAPE = false) by reflexivity.
  split; [exact H1|]. split; [exact H2|]. split; [exact H3|]. split; [exact H4|].
  split; [exact H5|]. split; [exact H6|]. split; [exact H7|].
  exact (updateEntity_hard_to_kinematic accept_all true s 0 0 ms b unit_box f
           H1 H2 H3 H4 H5 H6 H7).
Defined.

(** X21: A hard update without the Shape flag on a proxy that now reports Static
    re-inserts the body at the end of the world static, not kinematic,
    with zero mass and velocities, and simulation disabled. *)
Theorem updateEntity_hard_to_static (ok : shape_info -> bool) (dbg : bool) (s : engine)
    (p id : nat) (ms : motion_state) (b : rigid_body) (sh : shape_info) (flags : Z) :
  e_proxies s !! p = Some ms -> ms_body ms = Some id -> e_bodies s !! id = Some b ->
  rb_shape b = Some sh -> ms_motion_type ms = MOTION_TYPE_STATIC ->
  flag_set flags PHYSICS_UPDATE_HARD = true -> flag_set flags PHYSICS_UPDATE_SHAPE = false ->
  exists s' b', updateEntity ok dbg p flags s = Ret true s' /\ e_bodies s' !! id = Some b' /\
    e_world s' = remove_first id (e_world s) ++ [id] /\
    isStaticObject b' = true /\ isKinematicObject b' = false /\
    rb_act b' = DISABLE_SIMULATION /\ rb_mass b' = 0%Q /\
    rb_linvel b' = vzero /\ rb_angvel b' = vzero /\ rb_shape b' = Some sh.
Proof.
  intros Hp Hid Hb Hsh Ht Hh Hs.
  destruct (updateEntity_hard_prefix ok dbg s p id ms b sh flags) as (b1 & Hsh1 & Hrun); auto.
  rewrite Hrun, Ht.
  set (s1 := set_bodies _ _).
  destruct (applyMotionType_static s1 p id flags b1)
    as (b2 & Ha & Hc2 & Hact2 & Hm2 & Hsh2 & Hl2 & Han2).
  { unfold s1. simpl. apply lookup_insert_eq. }
  destruct (static_cflags_bits (rb_cflags b1)) as (Hst & Hk & Hsk).
  rewrite <- Hc2 in Hst, Hk, Hsk.
  erewrite bind_Ret by exact Ha. cbv beta. rewrite bind_assoc_run.
  erewrite bind_Ret.
  2:{ apply (addRigidBody_pinned_static _ id b2 sh); auto.
      - simpl. apply lookup_insert_eq.
      - congruence. }
  cbv beta. unfold modify_body. rewrite bind_assoc_run.
  erewrite bind_Ret by (unfold get_body; simpl; rewrite lookup_insert_eq; reflexivity).
  cbv beta. unfold activate, isStaticOrKinematicObject. rewrite Hsk. simpl.
  do 2 eexists. split; [reflexivity|]. simpl. rewrite lookup_insert_eq.
  split; [reflexivity|]. split; [reflexivity|]. repeat split; auto. congruence.
Qed.

(** Witness of X21: the dynamic box now reports Static. *)
Lemma updateEntity_hard_to_static_witness :
  let s := proxy0_reports MOTION_TYPE_STATIC 2 dynamic_box_engine in
  let ms := proxy_at s 0 in
  let b := body_at s 0 in
  let f := PHYSICS_UPDATE_MOTION_TYPE in
  e_proxies s !! 0 = Some ms /\ ms_body ms = Some 0%nat /\ e_bodies s !! 0 = Some b /\
  rb_shape b = Some unit_box /\ ms_motion_type ms = MOTION_TYPE_STATIC /\
  flag_set f PHYSICS_UPDATE_HARD = true /\ flag_set f PHYSICS_UPDATE_SHAPE = false /\
  exists s' b', updateEntity accept_all true 0 f s = Ret true s' /\ e_bodies s' !! 0 = Some b' /\
    e_world s' = remove_first 0 (e_world s) ++ [0%nat] /\
    isStaticObject b' = true /\ isKinematicObject b' = false /\
    rb_act b' = DISABLE_SIMULATION /\ rb_mass b' = 0%Q /\
    rb_linvel b' = vzero /\ rb_angvel b' = vzero /\ rb_shape b' = Some unit_box.
Proof.
  intros s ms b f.
  assert (H1 : e_proxies s !! 0 = Some ms) by (vm_compute; reflexivity).
  assert (H2 : ms_body ms = Some 0%nat) by (vm_compute; reflexivity).
  assert (H3 : e_bodies s !! 0 = Some b) by (vm_compute; reflexivity).
  assert (H4 : rb_shape b = Some unit_box) by (vm_compute; reflexivity).
  assert (H5 : ms_motion_type ms = MOTION_TYPE_STATIC) by (vm_compute; reflexivity).
  assert (H6 : flag_set f PHYSICS_UPDATE_HARD = true) by reflexivity.
  assert (H7 : flag_set f PHYSICS_UPDATE_SHAPE = false) by reflexivity.
  split; [exact H1|]. split; [exact H2|]. split; [exact H3|]. split; [exact H4|].
  split; [exact H5|]. split; [exact H6|]. split; [exact H7|].
  exact (updateEntity_hard_to_static accept_all true s 0 0 ms b unit_box f
           H1 H2 H3 H4 H5 H6 H7).
Defined.

(** X22: A hard update without the Shape and Mass flags on a proxy that reports
    Dynamic with zero mass, whose body's activation is not pinned,
    re-inserts the body static and asleep. *)
Theorem updateEntity_hard_dynamic_zero_mass (ok : shape_info -> bool) (dbg : bool) (s : engine)
    (p id : nat) (ms : motion_state) (b : rigid_body) (sh : shape_info) (flags : Z) :
  e_proxies s !! p = Some ms -> ms_body ms = Some id -> e_bodies s !! id = Some b ->
  rb_shape b = Some sh -> ms_motion_type ms = MOTION_TYPE_DYNAMIC -> (ms_mass ms == 0)%Q ->
  rb_act b <> DISABLE_DEACTIVATION -> rb_act b <> DISABLE_SIMULATION ->
  flag_set flags PHYSICS_UPDATE_HARD = true -> flag_set flags PHYSICS_UPDATE_SHAPE = false ->
  flag_set flags PHYSICS_UPDATE_MASS = false ->
  exists s' b', updateEntity ok dbg p flags s = Ret true s' /\ e_bodies s' !! id = Some b' /\
    e_world s' = remove_first id (e_world s) ++ [id] /\
    isStaticObject b' = true /\ isKinematicObject b' = false /\
    rb_act b' = ISLAND_SLEEPING /\ rb_mass b' = ms_mass ms.
Proof.
  intros Hp Hid Hb Hsh Ht Hm H4 H5 Hh Hs Hma.
  apply Qeq_bool_iff in Hm.
  destruct (updateEntity_hard_prefix_no_mass ok dbg s p id ms b sh flags)
    as (b1 & Hsh1 & Ha1 & Hrun); auto.
  rewrite Hrun, Ht.
  set (s1 := set_bodies _ _).
  assert (H41 : rb_act b1 <> DISABLE_DEACTIVATION) by (destruct Ha1 as [-> | ->]; [exact H4|discriminate]).
  assert (H51 : rb_act b1 <> DISABLE_SIMULATION) by (destruct Ha1 as [-> | ->]; [exact H5|discriminate]).
  destruct (applyMotionType_dynamic_zero_mass s1 p id flags ms b1 sh)
    as (b2 & Ha & Hc2 & Hact2 & Hm2 & Hsh2); auto.
  { unfold s1. simpl. apply lookup_insert_eq. }
  destruct (dynamic_zero_cflags_bits (rb_cflags b1)) as (Hst & Hk & Hsk).
  rewrite <- Hc2 in Hst, Hk, Hsk.
  erewrite bind_Ret by exact Ha. cbv beta. rewrite bind_assoc_run.
  erewrite bind_Ret.
  2:{ apply (addRigidBody_static_sleeps _ id b2 sh); auto.
      - simpl. apply lookup_insert_eq.
      - rewrite Hact2. discriminate.
      - rewrite Hact2. discriminate. }
  cbv beta. unfold modify_body. rewrite bind_assoc_run.
  erewrite bind_Ret by (unfold get_body; simpl; rewrite lookup_insert_eq; reflexivity).
  cbv beta. unfold activate, isStaticOrKinematicObject. simpl. rewrite Hsk. simpl.
  do 2 eexists. split; [reflexivity|]. simpl. rewrite lookup_insert_eq.
  split; [reflexivity|]. split; [reflexivity|].
  unfold isStaticObject, isKinematicObject. simpl. repeat split; auto.
Qed.

(** Witness of X22: the dynamic box now reports a zero mass. *)
Lemma updateEntity_hard_dynamic_zero_mass_witness :
  let s := proxy0_reports MOTION_TYPE_DYNAMIC 0 dynamic_box_engine in
  let ms := proxy_at s 0 in
  let b := body_at s 0 in
  let f := PHYSICS_UPDATE_MOTION_TYPE in
  e_proxies s !! 0 = Some ms /\ ms_body ms = Some 0%nat /\ e_bodies s !! 0 = Some b /\
  rb_shape b = Some unit_box /\ ms_motion_type ms = MOTION_TYPE_DYNAMIC /\ (ms_mass ms == 0)%Q /\
  rb_act b <> DISABLE_DEACTIVATION /\ rb_act b <> DISABLE_SIMULATION /\
  flag_set f PHYSICS_UPDATE_HARD = true /\ flag_set f PHYSICS_UPDATE_SHAPE = false /\
  flag_set f PHYSICS_UPDATE_MASS = false /\
  exists s' b', updateEntity accept_all true 0 f s = Ret true s' /\ e_bodies s' !! 0 = Some b' /\
    e_world s' = remove_first 0 (e_world s) ++ [0%nat] /\
    isStaticObject b' = true /\ isKinematicObject b' = false /\
    rb_act b' = ISLAND_SLEEPING /\ rb_mass b' = ms_mass ms.
Proof.
  intros s ms b f.
  assert (H1 : e_proxies s !! 0 = Some ms) by (vm_compute; reflexivity).
  assert (H2 : ms_body ms = Some 0%nat) by (vm_compute; reflexivity).
  assert (H3 : e_bodies s !! 0 = Some b) by (vm_compute; reflexivity).
  assert (H4 : rb_shape b = Some unit_box) by (vm_compute; reflexivity).
  assert (H5 : ms_motion_type ms = MOTION_TYPE_DYNAMIC) by (vm_compute; reflexivity).
  assert (H6 : (ms_mass ms == 0)%Q) by (vm_compute; reflexivity).
  assert (H7 : rb_act b <> DISABLE_DEACTIVATION) by (vm_compute; discriminate).
  assert (H8 : rb_act b <> DISABLE_SIMULATION) by (vm_compute; discriminate).
  assert (H9 : flag_set f PHYSICS_UPDATE_HARD = true) by reflexivity.
  assert (H10 : flag_set f PHYSICS_UPDATE_SHAPE = false) by reflexivity.
  assert (H11 : flag_set f PHYSICS_UPDATE_MASS = false) by reflexivity.
  do 11 (split; [assumption|]).
  exact (updateEntity_hard_dynamic_zero_mass accept_all true s 0 0 ms b unit_box f
           H1 H2 H3 H4 H5 H6 H7 H8 H9 H10 H11).
Defined.
